(** * Price comparison core of the grocery front end (src/App.js)

    The two search views of [App.js], [GuestSearch] and [Search], each
    define the closures [getLowestPrice] and [prepareChartData] over the
    React state [results] and call them once per product while rendering.
    This file embeds those closures and the render loop, and proves the
    properties the specification states about them.

    Modelling choices.
    - A price is a JavaScript Number.  A finite double is a rational, and
      both [<] and the sign of [-] on doubles agree with the rationals
      (a difference of two distinct doubles never rounds to zero), so a
      finite price is kept as a [Q]; the three non-finite Numbers are
      separate constructors.  A price field that is missing reads as
      [undefined], which both operators convert to NaN; prices of other
      JS types are not modelled.
    - Arrays are mutable objects: they live in a heap and are named by
      locations.  [[...prices]] allocates, [sort] writes in place.
    - [Array.prototype.sort] is a stable sort (ECMAScript 2019 and later).
      For a consistent comparator every conforming engine returns the same
      array; it is modelled by stable insertion.  With a NaN price the
      comparator is inconsistent and the order is the engine's own:
      statements about the order assume numeric prices.
    - A JS object used as a dictionary is a [gmap] keyed by strings; it
      holds the own entries.  The closures named [_with_prototype] add
      the lookup through [Object.prototype] and the [TypeError] it leads
      to, and agree with the plain ones on every other identifier.
    - An asynchronous handler is a function of the replies it awaits;
      where a statement needs the state shown while a request is
      pending, the handler is split at its [await].

    The file also embeds the search handlers, the authentication
    provider, the router and the deletion of a shopping list. *)

From Stdlib Require Import QArith Lqa Sorted Permutation.
From stdpp Require Import gmap strings list fin_maps.

Local Open Scope string_scope.

(** ** JavaScript Numbers *)

Inductive number : Type :=
  | Fin (q : Q)
  | PosInf
  | NegInf
  | NaN.

(** [a < b] on Numbers: false as soon as one side is NaN. *)
Definition num_lt (a b : number) : bool :=
  match a, b with
  | NaN, _ | _, NaN => false
  | Fin x, Fin y => if Qlt_le_dec x y then true else false
  | NegInf, NegInf => false
  | NegInf, _ => true
  | _, NegInf => false
  | PosInf, _ => false
  | Fin _, PosInf => true
  end.

(** [a - b] on Numbers.  On finite operands only the sign of the result is
    ever observed, and the sign of the rounded difference is the sign of
    the exact one. *)
Definition num_sub (a b : number) : number :=
  match a, b with
  | NaN, _ | _, NaN => NaN
  | Fin x, Fin y => Fin (x - y)
  | PosInf, PosInf => NaN
  | NegInf, NegInf => NaN
  | PosInf, _ => PosInf
  | NegInf, _ => NegInf
  | Fin _, PosInf => NegInf
  | Fin _, NegInf => PosInf
  end.

(** The order on Numbers that are not NaN. *)
Definition num_le (a b : number) : Prop :=
  match a, b with
  | NaN, _ | _, NaN => False
  | NegInf, _ => True
  | _, PosInf => True
  | Fin x, Fin y => (x <= y)%Q
  | _, _ => False
  end.

(** Numeric equality ([===] on Numbers, with NaN different from itself). *)
Definition num_eqb (a b : number) : bool :=
  match a, b with
  | Fin x, Fin y => Qeq_bool x y
  | PosInf, PosInf | NegInf, NegInf => true
  | _, _ => false
  end.

Definition is_NaN (a : number) : bool :=
  match a with NaN => true | _ => false end.

(** ** Data model *)

(** One entry of [results.prices[productId]]: [{store, price}]. *)
Record observation : Type := Observation {
  store : string;
  price : number
}.

(** One entry of [results.products]. *)
Record product : Type := Product {
  id : string;
  name : string;
  category : string;
  weight : option string;
  quantity : option string;
  unit_ : option string;
  image_url : option string
}.

Definition loc : Type := positive.

(** The arrays of observations that exist at some point of the execution. *)
Abbreviation heap := (gmap loc (list observation)).

(** The search response kept in the state [results]; both fields may be
    missing from the payload, and [prices] has an array for some product
    identifiers only. *)
Record results : Type := Results {
  products : option (list product);
  prices : option (gmap string loc)
}.

(** The [datasets[0]] object handed to the bar chart. *)
Record dataset : Type := Dataset {
  label : string;
  data : list number;
  backgroundColor : list string;
  borderColor : list string;
  borderWidth : Z
}.

Record chartData : Type := ChartData {
  labels : list string;
  datasets : list dataset
}.

(** ** A state monad over the heap *)

Definition M (A : Type) : Type := heap -> A * heap.

Definition ret {A} (a : A) : M A := fun h => (a, h).

Definition bind {A B} (m : M A) (k : A -> M B) : M B :=
  fun h => let (a, h') := m h in k a h'.

Declare Scope heap_scope.
Delimit Scope heap_scope with heap.
Notation "'let*' x ':=' m 'in' k" := (bind m (fun x => k))
  (at level 10, x name, m at level 100, k at level 200) : heap_scope.
Local Open Scope heap_scope.

(** Contents of an array; every location held by a live object is
    allocated, an unallocated one reads as the empty array. *)
Definition read (l : loc) : M (list observation) :=
  fun h => (default [] (h !! l), h).

Definition write (l : loc) (xs : list observation) : M unit :=
  fun h => (tt, <[l := xs]> h).

Definition alloc (xs : list observation) : M loc :=
  fun h => let l := fresh (dom h) in (l, <[l := xs]> h).

Fixpoint mapM {A B} (f : A -> M B) (l : list A) : M (list B) :=
  match l with
  | [] => ret []
  | x :: l' => let* y := f x in let* ys := mapM f l' in ret (y :: ys)
  end.

(** ** Array built-ins *)

(** [[...arr]]: a new array with the same elements. *)
Definition spread (l : loc) : M loc :=
  let* xs := read l in alloc xs.

(** What [sort] reads from a call of the comparison function: the sign of
    the returned Number, NaN counting as zero. *)
Definition SortCompare (comparefn : observation -> observation -> number)
    (x y : observation) : comparison :=
  match comparefn x y with
  | NaN => Eq
  | Fin v => (v ?= 0)%Q
  | PosInf => Gt
  | NegInf => Lt
  end.

Section Sort.

Variable comparefn : observation -> observation -> number.

(** [x] comes from further left than every element of [l]: it stays in
    front of the elements it does not compare greater than. *)
Fixpoint sort_insert (x : observation) (l : list observation) :
    list observation :=
  match l with
  | [] => [x]
  | y :: l' =>
      match SortCompare comparefn x y with
      | Gt => y :: sort_insert x l'
      | _ => x :: l
      end
  end.

Fixpoint sorted_of (l : list observation) : list observation :=
  match l with
  | [] => []
  | x :: l' => sort_insert x (sorted_of l')
  end.

End Sort.

(** [arr.sort(comparefn)]: sorts [arr] in place and returns [arr]. *)
Definition Array_sort (comparefn : observation -> observation -> number)
    (l : loc) : M loc :=
  let* xs := read l in
  let* _ := write l (sorted_of comparefn xs) in
  ret l.

(** [arr.map(f)] with [f] reading the element and its index; the new array
    is never written again and is kept as a value. *)
Definition Array_map {B} (f : observation -> nat -> B) (l : loc) : M (list B) :=
  let* xs := read l in ret (imap (fun i x => f x i) xs).

(** [arr.reduce(f, init)]. *)
Definition Array_reduce {B} (f : B -> observation -> B) (init : B) (l : loc) :
    M B :=
  let* xs := read l in ret (foldl f init xs).

(** ** Rendered output *)

(** One product card of the results grid: the product, the "Best Price"
    line when [lowestPrice] is truthy and the bar chart when [chartData]
    is truthy.  Formatting of the price is left to the presentation. *)
Record card : Type := Card {
  key : string;
  shown : product;
  bestPrice : option observation;
  chart : option chartData
}.

(** ** Property lookup through the prototype chain *)

(** [results.prices] is an object parsed from JSON, so a lookup
    [results.prices[productId]] that finds no own entry goes on to
    [Object.prototype].  Its members are built-in functions, of which
    the code can only read [length], and, behind [__proto__], the
    prototype object itself, which has no [length]. *)
Inductive inherited : Type :=
  | builtin_function (length : nat)
  | prototype_object.

Definition Object_prototype_members : list (string * inherited) :=
  [ ("constructor", builtin_function 1);
    ("__defineGetter__", builtin_function 2);
    ("__defineSetter__", builtin_function 2);
    ("hasOwnProperty", builtin_function 1);
    ("__lookupGetter__", builtin_function 1);
    ("__lookupSetter__", builtin_function 1);
    ("isPrototypeOf", builtin_function 1);
    ("propertyIsEnumerable", builtin_function 1);
    ("toString", builtin_function 0);
    ("valueOf", builtin_function 0);
    ("__proto__", prototype_object);
    ("toLocaleString", builtin_function 0) ].

Definition Object_prototype (name : string) : option inherited :=
  snd <$> List.find (fun member => String.eqb (fst member) name)
            Object_prototype_members.

(** What [results.prices[productId]] evaluates to. *)
Inductive value : Type :=
  | array (l : loc)
  | inherited_member (x : inherited)
  | undefined.

Definition Get (m : gmap string loc) (productId : string) : value :=
  match m !! productId with
  | Some l => array l
  | None =>
      match Object_prototype productId with
      | Some x => inherited_member x
      | None => undefined
      end
  end.

(** How a call ends: with a value, or with a [TypeError]. *)
Inductive completion (A : Type) : Type :=
  | Return (v : A)
  | ThrowTypeError.

Arguments Return {A} v.
Arguments ThrowTypeError {A}.

(** [arr.map(f)] over a callback that may raise: the first exception
    ends the loop. *)
Fixpoint mapM_completion {A B} (f : A -> M (completion B)) (l : list A) :
    M (completion (list B)) :=
  match l with
  | [] => ret (Return [])
  | x :: l' =>
      let* y := f x in
      match y with
      | ThrowTypeError => ret ThrowTypeError
      | Return y =>
          let* ys := mapM_completion f l' in
          match ys with
          | ThrowTypeError => ret ThrowTypeError
          | Return ys => ret (Return (y :: ys))
          end
      end
  end.

(** ** Replies of the HTTP client *)

(** What a handler reads of an [axios] call it awaits: the payload of the
    response, or, when the promise is rejected,
    [error.response?.data?.detail] if the error has one. *)
Inductive reply (A : Type) : Type :=
  | Resolved (data : A)
  | Rejected (detail : option string).

Arguments Resolved {A} data.
Arguments Rejected {A} detail.

(** [detail || fallback]: the fallback replaces a missing detail and the
    empty string. *)
Definition or_else (detail : option string) (fallback : string) : string :=
  match detail with
  | Some EmptyString => fallback
  | Some s => s
  | None => fallback
  end.

(** What a handler does besides setting state: the request it sends and
    the notifications it raises. *)
Inductive method : Type := GET | POST | DELETE.

Record request : Type := Request {
  verb : method;
  endpoint : string;              (* appended to [API] *)
  query_param : option (list N);  (* [params: { query }] *)
  authorization : option string   (* the [Authorization] header *)
}.

Inductive toast : Type :=
  | toast_success (text : string)
  | toast_error (text : string).

(** ** Text typed by the user: [String.prototype.trim] *)

(** A string that the code inspects is the list of its UTF-16 code
    units.  White space and line terminators of ECMAScript, all in the
    basic plane. *)
Definition isWhiteSpace (c : N) : bool :=
  existsb (N.eqb c)
    [0x9; 0xA; 0xB; 0xC; 0xD; 0x20; 0xA0; 0x1680; 0x2028; 0x2029; 0x202F;
     0x205F; 0x3000; 0xFEFF]%N
  || (0x2000 <=? c)%N && (c <=? 0x200A)%N.

Fixpoint trimStart (s : list N) : list N :=
  match s with
  | [] => []
  | c :: s' => if isWhiteSpace c then trimStart s' else s
  end.

Definition trimEnd (s : list N) : list N := reverse (trimStart (reverse s)).

Definition trim (s : list N) : list N := trimEnd (trimStart s).

(** A text made of white space only (the empty text included). *)
Definition blank (s : list N) : Prop :=
  Forall (fun c => isWhiteSpace c = true) s.

(** ** State and effects of a search form *)

Module SearchForm.

Abbreviation response_data := results.

(** The three [useState] cells of [GuestSearch] and of [Search]. *)
Record state : Type := State {
  query : list N;                   (* [useState("")] *)
  results : option response_data;   (* [useState(null)] *)
  loading : bool                    (* [useState(false)] *)
}.

Record effects : Type := Effects {
  sent : option request;
  toasts : list toast
}.

End SearchForm.

(** ** The guest search view (App.js lines 322-545) *)

Module GuestSearch.

(** Lines 328-340, up to the [await]: nothing happens on a blank query;
    otherwise the state is set to loading with no results and the
    request leaves with the trimmed query. *)
Definition handleSearch_submit (s : SearchForm.state) :
    option (SearchForm.state * request) :=
  match trim (SearchForm.query s) with
  | [] => None
  | _ :: _ =>
      Some ({| SearchForm.query := SearchForm.query s;
               SearchForm.results := None;
               SearchForm.loading := true |},
            {| verb := GET; endpoint := "/guest-search";
               query_param := Some (trim (SearchForm.query s));
               authorization := None |})
  end.

(** Lines 341-348, from the [await] on. *)
Definition handleSearch_settle (response : reply results)
    (s : SearchForm.state) : SearchForm.state * list toast :=
  match response with
  | Resolved data =>
      ({| SearchForm.query := SearchForm.query s;
          SearchForm.results := Some data;
          SearchForm.loading := false |}, [])
  | Rejected _ =>
      ({| SearchForm.query := SearchForm.query s;
          SearchForm.results := SearchForm.results s;
          SearchForm.loading := false |},
       [toast_error "Error searching for products"])
  end.

(** Lines 328-349, the whole handler given the reply of the server. *)
Definition handleSearch (response : reply results) (s : SearchForm.state) :
    SearchForm.state * SearchForm.effects :=
  match handleSearch_submit s with
  | None => (s, {| SearchForm.sent := None; SearchForm.toasts := [] |})
  | Some (pending, req) =>
      let (s', ts) := handleSearch_settle response pending in
      (s', {| SearchForm.sent := Some req; SearchForm.toasts := ts |})
  end.

(** Lines 352-360. *)
Definition getLowestPrice (results : option results) (productId : string) :
    M (option observation) :=
  match results with
  | None => ret None
  | Some r =>
    match prices r with
    | None => ret None
    | Some m =>
      match m !! productId with
      | None => ret None
      | Some prices =>
          let* xs := read prices in
          if (length xs =? 0)%nat then ret None
          else
            match xs !! 0%nat with (* [prices[0]], there since length > 0 *)
            | None => ret None
            | Some prices0 =>
                let* min :=
                  Array_reduce
                    (fun min cur =>
                       if num_lt (price cur) (price min) then cur else min)
                    prices0 prices in
                ret (Some min)
            end
      end
    end
  end.

(** Line 371: [[...prices].sort((a, b) => a.price - b.price)]. *)
Definition sortedPrices (prices : loc) : M loc :=
  let* copy := spread prices in
  Array_sort (fun a b => num_sub (price a) (price b)) copy.

(** Lines 363-389. *)
Definition prepareChartData (results : option results) (productId : string) :
    M (option chartData) :=
  match results with
  | None => ret None
  | Some r =>
    match prices r with
    | None => ret None
    | Some m =>
      match m !! productId with
      | None => ret None
      | Some prices =>
          let* sortedPrices := sortedPrices prices in
          let* labels := Array_map (fun p _ => store p) sortedPrices in
          let* data := Array_map (fun p _ => price p) sortedPrices in
          let* backgroundColor :=
            Array_map
              (fun _ index =>
                 if (index =? 0)%nat then "rgba(34, 197, 94, 0.7)"
                 else "rgba(99, 102, 241, 0.5)")
              sortedPrices in
          let* borderColor :=
            Array_map
              (fun _ index =>
                 if (index =? 0)%nat then "rgb(34, 197, 94)"
                 else "rgb(79, 70, 229)")
              sortedPrices in
          ret (Some {| labels := labels;
                       datasets :=
                         [ {| label := "Price (£)";
                              data := data;
                              backgroundColor := backgroundColor;
                              borderColor := borderColor;
                              borderWidth := 1 |} ] |})
      end
    end
  end.

(** Lines 352-360 with the lookup going through the prototype chain.
    [getLowestPrice] above is this closure on the identifiers that have
    an own entry or name no member of [Object.prototype].  An inherited
    member is truthy and passes the guard; a function of [length] 0
    then returns null at the length test, and on any other member
    [prices.reduce] is undefined and the call raises. *)
Definition getLowestPrice_with_prototype (results : option results)
    (productId : string) : M (completion (option observation)) :=
  match results with
  | None => ret (Return None)
  | Some r =>
    match prices r with
    | None => ret (Return None)
    | Some m =>
      match Get m productId with
      | undefined => ret (Return None)
      | inherited_member (builtin_function O) => ret (Return None)
      | inherited_member _ => ret ThrowTypeError
      | array prices =>
          let* xs := read prices in
          if (length xs =? 0)%nat then ret (Return None)
          else
            match xs !! 0%nat with
            | None => ret (Return None)
            | Some prices0 =>
                let* min :=
                  Array_reduce
                    (fun min cur =>
                       if num_lt (price cur) (price min) then cur else min)
                    prices0 prices in
                ret (Return (Some min))
            end
      end
    end
  end.

(** Lines 363-389 with the lookup going through the prototype chain: on an
    inherited member [[...prices]] raises, none of them being
    iterable. *)
Definition prepareChartData_with_prototype (results : option results)
    (productId : string) : M (completion (option chartData)) :=
  match results with
  | None => ret (Return None)
  | Some r =>
    match prices r with
    | None => ret (Return None)
    | Some m =>
      match Get m productId with
      | undefined => ret (Return None)
      | inherited_member _ => ret ThrowTypeError
      | array prices =>
          let* sortedPrices := sortedPrices prices in
          let* labels := Array_map (fun p _ => store p) sortedPrices in
          let* data := Array_map (fun p _ => price p) sortedPrices in
          let* backgroundColor :=
            Array_map
              (fun _ index =>
                 if (index =? 0)%nat then "rgba(34, 197, 94, 0.7)"
                 else "rgba(99, 102, 241, 0.5)")
              sortedPrices in
          let* borderColor :=
            Array_map
              (fun _ index =>
                 if (index =? 0)%nat then "rgb(34, 197, 94)"
                 else "rgb(79, 70, 229)")
              sortedPrices in
          ret (Return (Some
                 {| labels := labels;
                    datasets :=
                      [ {| label := "Price (£)";
                           data := data;
                           backgroundColor := backgroundColor;
                           borderColor := borderColor;
                           borderWidth := 1 |} ] |}))
      end
    end
  end.

(** Lines 430-437: the grid is rendered when [results.products] is a
    non-empty array, one card per product, in array order. *)
Definition renderResults (results : option results) : M (list card) :=
  match results with
  | None => ret []
  | Some r =>
    match products r with
    | None => ret []
    | Some ps =>
        if (0 <? length ps)%nat then
          mapM
            (fun product =>
               let* lowestPrice := getLowestPrice results (id product) in
               let* chartData := prepareChartData results (id product) in
               ret {| key := id product;
                      shown := product;
                      bestPrice := lowestPrice;
                      chart := chartData |})
            ps
        else ret []
    end
  end.

(** Lines 430-437 with the closures as they are on every identifier: an
    exception raised for one product ends the render. *)
Definition renderResults_with_prototype (results : option results) :
    M (completion (list card)) :=
  match results with
  | None => ret (Return [])
  | Some r =>
    match products r with
    | None => ret (Return [])
    | Some ps =>
        if (0 <? length ps)%nat then
          mapM_completion
            (fun product =>
               let* lowestPrice :=
                 getLowestPrice_with_prototype results (id product) in
               match lowestPrice with
               | ThrowTypeError => ret ThrowTypeError
               | Return lowestPrice =>
                   let* chartData :=
                     prepareChartData_with_prototype results (id product) in
                   match chartData with
                   | ThrowTypeError => ret ThrowTypeError
                   | Return chartData =>
                       ret (Return {| key := id product;
                                      shown := product;
                                      bestPrice := lowestPrice;
                                      chart := chartData |})
                   end
               end)
            ps
        else ret (Return [])
    end
  end.

End GuestSearch.

(** ** The authenticated search view (App.js lines 761-971) *)

Module Search.

(** Lines 767-780, up to the [await]; [token] is
    [localStorage.getItem("token")], and a missing token is spliced into
    the header as the text [null]. *)
Definition handleSearch_submit (token : option string)
    (s : SearchForm.state) : option (SearchForm.state * request) :=
  match trim (SearchForm.query s) with
  | [] => None
  | _ :: _ =>
      Some ({| SearchForm.query := SearchForm.query s;
               SearchForm.results := None;
               SearchForm.loading := true |},
            {| verb := GET; endpoint := "/search";
               query_param := Some (trim (SearchForm.query s));
               authorization := Some ("Bearer " ++ default "null" token) |})
  end.

(** Lines 781-788, from the [await] on. *)
Definition handleSearch_settle (response : reply results)
    (s : SearchForm.state) : SearchForm.state * list toast :=
  match response with
  | Resolved data =>
      ({| SearchForm.query := SearchForm.query s;
          SearchForm.results := Some data;
          SearchForm.loading := false |}, [])
  | Rejected _ =>
      ({| SearchForm.query := SearchForm.query s;
          SearchForm.results := SearchForm.results s;
          SearchForm.loading := false |},
       [toast_error "Error searching for products"])
  end.

(** Lines 767-789, the whole handler given the reply of the server. *)
Definition handleSearch (token : option string) (response : reply results)
    (s : SearchForm.state) : SearchForm.state * SearchForm.effects :=
  match handleSearch_submit token s with
  | None => (s, {| SearchForm.sent := None; SearchForm.toasts := [] |})
  | Some (pending, req) =>
      let (s', ts) := handleSearch_settle response pending in
      (s', {| SearchForm.sent := Some req; SearchForm.toasts := ts |})
  end.

(** Lines 792-800. *)
Definition getLowestPrice (results : option results) (productId : string) :
    M (option observation) :=
  match results with
  | None => ret None
  | Some r =>
    match prices r with
    | None => ret None
    | Some m =>
      match m !! productId with
      | None => ret None
      | Some prices =>
          let* xs := read prices in
          if (length xs =? 0)%nat then ret None
          else
            match xs !! 0%nat with (* [prices[0]], there since length > 0 *)
            | None => ret None
            | Some prices0 =>
                let* min :=
                  Array_reduce
                    (fun min cur =>
                       if num_lt (price cur) (price min) then cur else min)
                    prices0 prices in
                ret (Some min)
            end
      end
    end
  end.

(** Line 811. *)
Definition sortedPrices (prices : loc) : M loc :=
  let* copy := spread prices in
  Array_sort (fun a b => num_sub (price a) (price b)) copy.

(** Lines 803-829. *)
Definition prepareChartData (results : option results) (productId : string) :
    M (option chartData) :=
  match results with
  | None => ret None
  | Some r =>
    match prices r with
    | None => ret None
    | Some m =>
      match m !! productId with
      | None => ret None
      | Some prices =>
          let* sortedPrices := sortedPrices prices in
          let* labels := Array_map (fun p _ => store p) sortedPrices in
          let* data := Array_map (fun p _ => price p) sortedPrices in
          let* backgroundColor :=
            Array_map
              (fun _ index =>
                 if (index =? 0)%nat then "rgba(34, 197, 94, 0.7)"
                 else "rgba(99, 102, 241, 0.5)")
              sortedPrices in
          let* borderColor :=
            Array_map
              (fun _ index =>
                 if (index =? 0)%nat then "rgb(34, 197, 94)"
                 else "rgb(79, 70, 229)")
              sortedPrices in
          ret (Some {| labels := labels;
                       datasets :=
                         [ {| label := "Price (£)";
                              data := data;
                              backgroundColor := backgroundColor;
                              borderColor := borderColor;
                              borderWidth := 1 |} ] |})
      end
    end
  end.

(** Lines 792-800 with the lookup going through the prototype chain.
    [getLowestPrice] above is this closure on the identifiers that have
    an own entry or name no member of [Object.prototype].  An inherited
    member is truthy and passes the guard; a function of [length] 0
    then returns null at the length test, and on any other member
    [prices.reduce] is undefined and the call raises. *)
Definition getLowestPrice_with_prototype (results : option results)
    (productId : string) : M (completion (option observation)) :=
  match results with
  | None => ret (Return None)
  | Some r =>
    match prices r with
    | None => ret (Return None)
    | Some m =>
      match Get m productId with
      | undefined => ret (Return None)
      | inherited_member (builtin_function O) => ret (Return None)
      | inherited_member _ => ret ThrowTypeError
      | array prices =>
          let* xs := read prices in
          if (length xs =? 0)%nat then ret (Return None)
          else
            match xs !! 0%nat with
            | None => ret (Return None)
            | Some prices0 =>
                let* min :=
                  Array_reduce
                    (fun min cur =>
                       if num_lt (price cur) (price min) then cur else min)
                    prices0 prices in
                ret (Return (Some min))
            end
      end
    end
  end.

(** Lines 803-829 with the lookup going through the prototype chain: on an
    inherited member [[...prices]] raises, none of them being
    iterable. *)
Definition prepareChartData_with_prototype (results : option results)
    (productId : string) : M (completion (option chartData)) :=
  match results with
  | None => ret (Return None)
  | Some r =>
    match prices r with
    | None => ret (Return None)
    | Some m =>
      match Get m productId with
      | undefined => ret (Return None)
      | inherited_member _ => ret ThrowTypeError
      | array prices =>
          let* sortedPrices := sortedPrices prices in
          let* labels := Array_map (fun p _ => store p) sortedPrices in
          let* data := Array_map (fun p _ => price p) sortedPrices in
          let* backgroundColor :=
            Array_map
              (fun _ index =>
                 if (index =? 0)%nat then "rgba(34, 197, 94, 0.7)"
                 else "rgba(99, 102, 241, 0.5)")
              sortedPrices in
          let* borderColor :=
            Array_map
              (fun _ index =>
                 if (index =? 0)%nat then "rgb(34, 197, 94)"
                 else "rgb(79, 70, 229)")
              sortedPrices in
          ret (Return (Some
                 {| labels := labels;
                    datasets :=
                      [ {| label := "Price (£)";
                           data := data;
                           backgroundColor := backgroundColor;
                           borderColor := borderColor;
                           borderWidth := 1 |} ] |}))
      end
    end
  end.

(** Lines 862-868. *)
Definition renderResults (results : option results) : M (list card) :=
  match results with
  | None => ret []
  | Some r =>
    match products r with
    | None => ret []
    | Some ps =>
        if (0 <? length ps)%nat then
          mapM
            (fun product =>
               let* lowestPrice := getLowestPrice results (id product) in
               let* chartData := prepareChartData results (id product) in
               ret {| key := id product;
                      shown := product;
                      bestPrice := lowestPrice;
                      chart := chartData |})
            ps
        else ret []
    end
  end.

(** Lines 862-868 with the closures as they are on every identifier: an
    exception raised for one product ends the render. *)
Definition renderResults_with_prototype (results : option results) :
    M (completion (list card)) :=
  match results with
  | None => ret (Return [])
  | Some r =>
    match products r with
    | None => ret (Return [])
    | Some ps =>
        if (0 <? length ps)%nat then
          mapM_completion
            (fun product =>
               let* lowestPrice :=
                 getLowestPrice_with_prototype results (id product) in
               match lowestPrice with
               | ThrowTypeError => ret ThrowTypeError
               | Return lowestPrice =>
                   let* chartData :=
                     prepareChartData_with_prototype results (id product) in
                   match chartData with
                   | ThrowTypeError => ret ThrowTypeError
                   | Return chartData =>
                       ret (Return {| key := id product;
                                      shown := product;
                                      bestPrice := lowestPrice;
                                      chart := chartData |})
                   end
               end)
            ps
        else ret (Return [])
    end
  end.

End Search.

(** ** Vocabulary of the statements *)

(** An observation whose price is a Number other than NaN. *)
Definition numeric (o : observation) : Prop := is_NaN (price o) = false.

Definition price_le (a b : observation) : Prop := num_le (price a) (price b).

(** A price the specification accepts: a finite, non-negative number. *)
Definition valid_price (n : number) : bool :=
  match n with
  | Fin q => Qle_bool 0 q
  | _ => false
  end.

(** The observations whose price equals [p], in list order. *)
Definition priced (p : number) (l : list observation) : list observation :=
  List.filter (fun o => num_eqb (price o) p) l.

(** The (store, price) pairs a chart displays, first bar first. *)
Definition series (c : chartData) : list observation :=
  match datasets c with
  | d :: _ => zip_with Observation (labels c) (data d)
  | [] => []
  end.

(** The cheapest observation of a list, the leftmost one among equals. *)
Fixpoint leftmost_min (l : list observation) : option observation :=
  match l with
  | [] => None
  | x :: l' =>
      match leftmost_min l' with
      | None => Some x
      | Some m => if num_lt (price m) (price x) then Some m else Some x
      end
  end.

(** The callbacks of the source, named for the statements below. *)
Definition cheaper (min cur : observation) : observation :=
  if num_lt (price cur) (price min) then cur else min.

Definition by_price (a b : observation) : number :=
  num_sub (price a) (price b).

(** The array [results.prices[productId]], when the state has one. *)
Definition entry (r : results) (productId : string) : option loc :=
  match prices r with
  | Some m => m !! productId
  | None => None
  end.

(** The chart object built from the sorted array. *)
Definition chart_of (sorted : list observation) : chartData :=
  {| labels := store <$> sorted;
     datasets :=
       [ {| label := "Price (£)";
            data := price <$> sorted;
            backgroundColor :=
              imap (fun index _ =>
                      if (index =? 0)%nat then "rgba(34, 197, 94, 0.7)"
                      else "rgba(99, 102, 241, 0.5)") sorted;
            borderColor :=
              imap (fun index _ =>
                      if (index =? 0)%nat then "rgb(34, 197, 94)"
                      else "rgb(79, 70, 229)") sorted;
            borderWidth := 1 |} ] |}.

(** ** Example data: the tie and sparse-data cases of the specification *)

Definition store_A : observation := {| store := "A"; price := Fin 2 |}.
Definition store_B : observation := {| store := "B"; price := Fin 2 |}.
Definition store_C : observation := {| store := "C"; price := Fin 1.5 |}.

Definition product_P1 : product :=
  {| id := "P1"; name := "Milk"; category := "Dairy"; weight := None;
     quantity := None; unit_ := None; image_url := None |}.

Definition product_P2 : product :=
  {| id := "P2"; name := "Bread"; category := "Bakery"; weight := None;
     quantity := None; unit_ := None; image_url := None |}.

(** [{products: [P1, P2], prices: {P1: [A, B, C]}}]: P2 has no prices. *)
Definition example_results : results :=
  {| products := Some [product_P1; product_P2];
     prices := Some {[ "P1" := 1%positive ]} |}.

Definition example_heap : heap := {[ 1%positive := [store_A; store_B; store_C] ]}.

(** [{products: [P1], prices: {P1: []}}]. *)
Definition empty_results : results :=
  {| products := Some [product_P1];
     prices := Some {[ "P1" := 1%positive ]} |}.

Definition empty_heap : heap := {[ 1%positive := [] ]}.

(** A negative price and a price that is not a number. *)
Definition store_negative : observation := {| store := "B"; price := Fin (-1) |}.
Definition store_NaN : observation := {| store := "A"; price := NaN |}.
Definition store_one : observation := {| store := "B"; price := Fin 1 |}.

Definition negative_heap : heap := {[ 1%positive := [store_A; store_negative] ]}.
Definition NaN_heap : heap := {[ 1%positive := [store_NaN; store_one] ]}.

(** The observations with a price other than NaN, in order. *)
Definition numeric_only (l : list observation) : list observation :=
  List.filter (fun o => negb (is_NaN (price o))) l.

(** ** Authentication (App.js lines 121-232) *)

Module AuthProvider.

(** The payload of [GET /me]; the file reads [user.id] and [user.name]. *)
Record profile : Type := Profile {
  id : string;
  name : string
}.

(** The state of the provider, with the entry ["token"] of
    [localStorage] that its functions read and write. *)
Record state : Type := State {
  user : option profile;   (* [useState(null)] *)
  loading : bool;          (* [useState(true)] *)
  token : option string    (* [localStorage.getItem("token")] *)
}.

(** [{ success, message }] as returned by [login] and [register]. *)
Record outcome : Type := Outcome {
  success : bool;
  message : option string
}.

(** The state a page load starts from. *)
Definition initial (stored : option string) : state :=
  {| user := None; loading := true; token := stored |}.

(** Lines 135-147. *)
Definition fetchUserProfile (me : reply profile) (s : state) : state :=
  match me with
  | Resolved data =>
      {| user := Some data; loading := false; token := token s |}
  | Rejected _ =>
      {| user := user s; loading := false; token := None |}
  end.

(** Lines 125-133: the effect run on mount; the empty string is falsy. *)
Definition mount (me : reply profile) (s : state) : state :=
  match token s with
  | Some EmptyString | None =>
      {| user := user s; loading := false; token := token s |}
  | Some _ => fetchUserProfile me s
  end.

(** Lines 149-178. *)
Definition login (post : reply string) (me : reply profile) (s : state) :
    outcome * state :=
  match post with
  | Resolved access_token =>
      let s1 :=
        {| user := user s; loading := loading s;
           token := Some access_token |} in
      match me with
      | Resolved data =>
          ({| success := true; message := None |},
           {| user := Some data; loading := loading s1; token := token s1 |})
      | Rejected detail =>
          ({| success := false;
              message := Some (or_else detail "Login failed") |}, s1)
      end
  | Rejected detail =>
      ({| success := false;
          message := Some (or_else detail "Login failed") |}, s)
  end.

(** Lines 180-195. *)
Definition register (post : reply unit) (s : state) : outcome * state :=
  match post with
  | Resolved _ => ({| success := true; message := None |}, s)
  | Rejected detail =>
      ({| success := false;
          message := Some (or_else detail "Registration failed") |}, s)
  end.

(** Lines 197-200. *)
Definition logout (s : state) : state :=
  {| user := None; loading := loading s; token := None |}.

(** What can happen after the page has loaded.  The forms offer [login]
    and [register] while no user is set and the navigation bar offers
    [logout] while one is, so the handlers run one after the other. *)
Inductive event : Type :=
  | Login (post : reply string) (me : reply profile)
  | Register (post : reply unit)
  | Logout.

Definition step (s : state) (e : event) : state :=
  match e with
  | Login post me => (login post me s).2
  | Register post => (register post s).2
  | Logout => logout s
  end.

(** A page load with [stored] in [localStorage], then the events. *)
Definition run (stored : option string) (me : reply profile)
    (events : list event) : state :=
  foldl step (mount me (initial stored)) events.

End AuthProvider.

(** ** Routing (App.js lines 217-232, 578-580, 670-672, 1197-1244) *)

Module AppRouter.

(** The [Route] that the router matched for the current location. *)
Inductive route : Type :=
  | LoginRoute            (* path="/login" *)
  | RegisterRoute         (* path="/register" *)
  | GuestSearchRoute      (* path="/guest-search" *)
  | HomeRoute             (* path="/" *)
  | SearchRoute           (* path="/search" *)
  | ShoppingListsRoute    (* path="/shopping-lists" *)
  | StoresRoute           (* path="/stores" *)
  | OtherRoute.           (* path="*" *)

Inductive view : Type :=
  | HomeView
  | GuestSearchView
  | SearchView
  | ShoppingListsView
  | StoresView
  | LoginForm
  | RegisterForm
  | LoadingText.

(** What an element ends in: something on the screen, or a navigation
    to the route of a literal path. *)
Inductive element : Type :=
  | Render (v : view)
  | Navigate (to : route).

(** Lines 217-232.  Without a user and once loading is over the
    component renders null and its effect calls [navigate("/login")]. *)
Definition ProtectedRoute (auth : AuthProvider.state) (children : element) :
    element :=
  if AuthProvider.loading auth then Render LoadingText
  else
    match AuthProvider.user auth with
    | Some _ => children
    | None => Navigate LoginRoute
    end.

(** Lines 578-580. *)
Definition Login (auth : AuthProvider.state) : element :=
  match AuthProvider.user auth with
  | Some _ => Navigate HomeRoute
  | None => Render LoginForm
  end.

(** Lines 670-672. *)
Definition Register (auth : AuthProvider.state) : element :=
  match AuthProvider.user auth with
  | Some _ => Navigate HomeRoute
  | None => Render RegisterForm
  end.

(** Lines 1204-1241. *)
Definition AppRouter (auth : AuthProvider.state) (r : route) : element :=
  match r with
  | LoginRoute => Login auth
  | RegisterRoute => Register auth
  | GuestSearchRoute => Render GuestSearchView
  | HomeRoute =>
      match AuthProvider.user auth with
      | Some _ => Render HomeView
      | None => Navigate GuestSearchRoute
      end
  | SearchRoute => ProtectedRoute auth (Render SearchView)
  | ShoppingListsRoute => ProtectedRoute auth (Render ShoppingListsView)
  | StoresRoute => Render StoresView
  | OtherRoute =>
      Navigate
        (match AuthProvider.user auth with
         | Some _ => HomeRoute
         | None => GuestSearchRoute
         end)
  end.

(** Follows navigations, at most [fuel] elements; ends with the view on
    the screen and the route it belongs to. *)
Fixpoint settle (fuel : nat) (auth : AuthProvider.state) (r : route) :
    option (route * view) :=
  match fuel with
  | O => None
  | S fuel' =>
      match AppRouter auth r with
      | Render v => Some (r, v)
      | Navigate to => settle fuel' auth to
      end
  end.

End AppRouter.

(** ** Shopping lists (App.js lines 974-1046) *)

Module ShoppingLists.

Record shoppingList : Type := ShoppingList {
  id : string;
  name : string;
  created_at : string;
  items : list string
}.

Record effects : Type := Effects {
  sent : option request;
  toasts : list toast
}.

(** Lines 1029-1046: [confirmed] is the answer to [window.confirm],
    [token] the entry of [localStorage]. *)
Definition handleDeleteList (confirmed : bool) (token : option string)
    (response : reply unit) (listId : string) (lists : list shoppingList) :
    list shoppingList * effects :=
  if confirmed then
    let req :=
      {| verb := DELETE; endpoint := "/shopping-lists/" ++ listId;
         query_param := None;
         authorization := Some ("Bearer " ++ default "null" token) |} in
    match response with
    | Resolved _ =>
        (filter (fun list => id list <> listId) lists,
         {| sent := Some req;
            toasts := [toast_success "Shopping list deleted"] |})
    | Rejected _ =>
        (lists,
         {| sent := Some req;
            toasts := [toast_error "Error deleting shopping list"] |})
    end
  else (lists, {| sent := None; toasts := [] |}).

End ShoppingLists.

(** [{products: [{id: "constructor"}], prices: {}}]: the product has no
    own entry, and its identifier names a member of [Object.prototype]. *)
Definition product_constructor : product :=
  {| id := "constructor"; name := "Kit"; category := "Toys"; weight := None;
     quantity := None; unit_ := None; image_url := None |}.

Definition inherited_results : results :=
  {| products := Some [product_constructor]; prices := Some ∅ |}.

(** The text " milk " and a text of three kinds of white space. *)
Definition example_query : list N := [0x20; 0x6D; 0x69; 0x6C; 0x6B; 0x20]%N.
Definition blank_query : list N := [0x20; 0xA0; 0x9]%N.

Definition example_form (q : list N) : SearchForm.state :=
  {| SearchForm.query := q;
     SearchForm.results := Some example_results;
     SearchForm.loading := false |}.

Definition example_profile : AuthProvider.profile :=
  {| AuthProvider.id := "u1"; AuthProvider.name := "Ada" |}.

Definition example_lists : list ShoppingLists.shoppingList :=
  [ {| ShoppingLists.id := "L1"; ShoppingLists.name := "Weekly";
       ShoppingLists.created_at := "2025-01-01"; ShoppingLists.items := [] |};
    {| ShoppingLists.id := "L2"; ShoppingLists.name := "Party";
       ShoppingLists.created_at := "2025-01-02";
       ShoppingLists.items := ["crisps"] |} ].

(** ** Numbers: order facts *)

Section Numbers.

Implicit Types a b c : number.

Lemma num_lt_irrefl a : num_lt a a = false.
Proof.
  destruct a as [x| | |]; simpl; try reflexivity.
  destruct (Qlt_le_dec x x) as [Hlt|_]; [|reflexivity].
  exfalso. revert Hlt. apply Qlt_irrefl.
Qed.

Lemma num_lt_asym a b : num_lt a b = true -> num_lt b a = false.
Proof.
  destruct a as [x| | |], b as [y| | |]; simpl; try congruence.
  destruct (Qlt_le_dec x y), (Qlt_le_dec y x); try congruence.
  exfalso. lra.
Qed.

Lemma num_lt_trans a b c :
  num_lt a b = true -> num_lt b c = true -> num_lt a c = true.
Proof.
  destruct a as [x| | |], b as [y| | |], c as [z| | |]; simpl; try congruence.
  destruct (Qlt_le_dec x y), (Qlt_le_dec y z), (Qlt_le_dec x z);
    try congruence.
  exfalso. lra.
Qed.

(** [>=] is transitive through a middle operand that is not NaN. *)
Lemma num_ge_trans a b c :
  is_NaN b = false ->
  num_lt a b = false -> num_lt b c = false -> num_lt a c = false.
Proof.
  destruct a as [x| | |], b as [y| | |], c as [z| | |]; simpl; try congruence.
  destruct (Qlt_le_dec x y), (Qlt_le_dec y z), (Qlt_le_dec x z);
    try congruence.
  exfalso. lra.
Qed.

Lemma num_lt_true_le a b : num_lt a b = true -> num_le a b.
Proof.
  destruct a as [x| | |], b as [y| | |]; simpl; try congruence; try tauto.
  destruct (Qlt_le_dec x y); [lra | congruence].
Qed.

Lemma num_lt_false_le a b :
  is_NaN a = false -> is_NaN b = false -> num_lt a b = false -> num_le b a.
Proof.
  destruct a as [x| | |], b as [y| | |]; simpl; try congruence; try tauto.
  destruct (Qlt_le_dec x y); [congruence | tauto].
Qed.

Lemma num_le_trans a b c : num_le a b -> num_le b c -> num_le a c.
Proof.
  destruct a as [x| | |], b as [y| | |], c as [z| | |]; simpl; try tauto.
  lra.
Qed.

Lemma num_eqb_not_lt a b p :
  num_eqb a p = true -> num_eqb b p = true -> num_lt a b = false.
Proof.
  destruct a as [x| | |], b as [y| | |], p as [z| | |]; simpl;
    try congruence.
  intros Hx Hy. apply Qeq_bool_iff in Hx. apply Qeq_bool_iff in Hy.
  destruct (Qlt_le_dec x y); [exfalso; lra | reflexivity].
Qed.

(** The comparator of the source puts [x] after [y] exactly when [y] is
    strictly cheaper; this holds for every pair of Numbers. *)
Lemma SortCompare_by_price x y :
  SortCompare by_price x y = Gt <-> num_lt (price y) (price x) = true.
Proof.
  unfold SortCompare, by_price.
  destruct (price x) as [a| | |], (price y) as [b| | |]; simpl;
    try (split; congruence).
  rewrite <- Qgt_alt.
  destruct (Qlt_le_dec b a); split; intros; try congruence; lra.
Qed.

End Numbers.

(** ** The leftmost minimum *)

Lemma leftmost_min_None l : leftmost_min l = None -> l = [].
Proof.
  destruct l as [|x l]; [reflexivity|]. simpl.
  destruct (leftmost_min l); [destruct (num_lt _ _)|]; discriminate.
Qed.

Lemma leftmost_min_elem l o : leftmost_min l = Some o -> o ∈ l.
Proof.
  revert o. induction l as [|x l IH]; intros o; simpl; [discriminate|].
  destruct (leftmost_min l) as [m|].
  - destruct (num_lt (price m) (price x)); intros [= <-].
    + right. by apply IH.
    + left.
  - intros [= <-]. left.
Qed.

(** What [leftmost_min] selects: a position of the list, nothing in the
    list is strictly cheaper, and everything before is strictly dearer. *)
Lemma leftmost_min_spec l o :
  Forall numeric l ->
  leftmost_min l = Some o ->
  exists i : nat,
    l !! i = Some o
    /\ (forall o', o' ∈ l -> num_lt (price o') (price o) = false)
    /\ (forall (j : nat) o', (j < i)%nat -> l !! j = Some o' ->
          num_lt (price o) (price o') = true).
Proof.
  intros Hnum. revert o.
  induction Hnum as [|x l Hx Hl IH]; intros o; simpl; [discriminate|].
  destruct (leftmost_min l) as [m|] eqn:Hm.
  - destruct (IH m eq_refl) as (i & Hi & Hmin & Hbefore).
    destruct (num_lt (price m) (price x)) eqn:Hlt; intros [= <-].
    + exists (S i). split; [exact Hi|]. split.
      * intros o' Ho'. apply elem_of_cons in Ho' as [->|Ho'].
        -- by apply num_lt_asym.
        -- by apply Hmin.
      * intros [|j] o' Hj Hlook; simpl in Hlook.
        -- by injection Hlook as <-.
        -- apply (Hbefore j); [lia | exact Hlook].
    + exists 0%nat. split; [reflexivity|]. split.
      * intros o' Ho'. apply elem_of_cons in Ho' as [->|Ho'].
        -- apply num_lt_irrefl.
        -- apply num_ge_trans with (price m); [|by apply Hmin|exact Hlt].
           apply leftmost_min_elem in Hm.
           rewrite Forall_forall in Hl. by apply Hl.
      * intros j o' Hj. lia.
  - intros [= <-]. apply leftmost_min_None in Hm as ->.
    exists 0%nat. split; [reflexivity|]. split.
    + intros o' Ho'. apply list_elem_of_singleton in Ho' as ->.
      apply num_lt_irrefl.
    + intros j o' Hj. lia.
Qed.

(** The left-to-right scan of [reduce] ends on the leftmost minimum of
    what it has read, compared with the initial value. *)
Lemma foldl_cheaper a l :
  numeric a -> Forall numeric l ->
  foldl cheaper a l =
    match leftmost_min l with
    | None => a
    | Some m => if num_lt (price m) (price a) then m else a
    end.
Proof.
  intros Ha Hl. revert a Ha.
  induction Hl as [|x l Hx Hl IH]; intros a Ha; simpl; [reflexivity|].
  assert (Hstep : numeric (cheaper a x)).
  { unfold cheaper. by destruct (num_lt (price x) (price a)). }
  rewrite (IH _ Hstep).
  destruct (leftmost_min l) as [m|] eqn:Hm; [|reflexivity].
  assert (Hmn : numeric m).
  { apply leftmost_min_elem in Hm. rewrite Forall_forall in Hl. by apply Hl. }
  unfold cheaper.
  destruct (num_lt (price x) (price a)) eqn:Hxa.
  - destruct (num_lt (price m) (price x)) eqn:Hmx.
    + by rewrite (num_lt_trans _ _ _ Hmx Hxa).
    + by rewrite Hxa.
  - destruct (num_lt (price m) (price x)) eqn:Hmx.
    + reflexivity.
    + rewrite Hxa. by rewrite (num_ge_trans _ _ _ Hx Hmx Hxa).
Qed.

(** [prices.reduce(cheaper, prices[0])] on a non-empty array. *)
Lemma reduce_from_first x l :
  Forall numeric (x :: l) ->
  foldl cheaper x (x :: l) = default x (leftmost_min (x :: l)).
Proof.
  intros Hall. pose proof (Forall_inv Hall) as Hx.
  pose proof (Forall_inv_tail Hall) as Hl.
  cbn [foldl]. unfold cheaper at 2. rewrite num_lt_irrefl.
  rewrite (foldl_cheaper _ _ Hx Hl). simpl.
  destruct (leftmost_min l) as [m|]; [|reflexivity].
  by destruct (num_lt (price m) (price x)).
Qed.

(** ** The sort *)

Section SortFacts.

Variable comparefn : observation -> observation -> number.

Lemma sort_insert_perm x l : sort_insert comparefn x l ≡ₚ x :: l.
Proof.
  induction l as [|y l IH]; simpl; [reflexivity|].
  destruct (SortCompare comparefn x y); try reflexivity.
  rewrite IH. apply Permutation_swap.
Qed.

Lemma sorted_of_perm l : sorted_of comparefn l ≡ₚ l.
Proof.
  induction l as [|x l IH]; simpl; [reflexivity|].
  rewrite sort_insert_perm. by rewrite IH.
Qed.

Lemma sorted_of_length l : length (sorted_of comparefn l) = length l.
Proof. apply Permutation_length, sorted_of_perm. Qed.

End SortFacts.

Lemma sort_insert_sorted x l :
  numeric x -> Forall numeric l ->
  StronglySorted price_le l ->
  StronglySorted price_le (sort_insert by_price x l).
Proof.
  intros Hx Hnum Hs. induction Hs as [|y l Hs IH Hy]; simpl.
  - repeat constructor.
  - pose proof (Forall_inv Hnum) as Hyn.
    pose proof (Forall_inv_tail Hnum) as Hln.
    destruct (SortCompare by_price x y) eqn:Hc.
    1, 2: assert (Hxy : price_le x y)
      by (apply num_lt_false_le; [done..|];
          destruct (num_lt (price y) (price x)) eqn:E; [|done];
          apply SortCompare_by_price in E; congruence).
    1, 2: constructor; [by constructor|]; constructor; [exact Hxy|];
      eapply Forall_impl; [exact Hy|];
      intros z Hz; eapply num_le_trans; [exact Hxy | exact Hz].
    constructor; [by apply IH|].
    rewrite sort_insert_perm. constructor; [|exact Hy].
    apply num_lt_true_le. by apply SortCompare_by_price.
Qed.

Lemma sorted_of_sorted l :
  Forall numeric l -> StronglySorted price_le (sorted_of by_price l).
Proof.
  induction 1 as [|x l Hx Hl IH]; simpl; [constructor|].
  apply sort_insert_sorted; [exact Hx| |exact IH].
  by rewrite sorted_of_perm.
Qed.

(** Insertion never moves an observation past one of the same price. *)
Lemma sort_insert_priced p x l :
  priced p (sort_insert by_price x l) = priced p (x :: l).
Proof.
  induction l as [|y l IH]; [reflexivity|]. cbn [sort_insert].
  destruct (SortCompare by_price x y) eqn:Hc; try reflexivity.
  apply SortCompare_by_price in Hc.
  unfold priced in *. cbn [List.filter] in *. rewrite IH.
  destruct (num_eqb (price x) p) eqn:Ex, (num_eqb (price y) p) eqn:Ey;
    try reflexivity.
  rewrite (num_eqb_not_lt _ _ _ Ey Ex) in Hc. discriminate.
Qed.

Lemma sorted_of_priced p l : priced p (sorted_of by_price l) = priced p l.
Proof.
  induction l as [|x l IH]; [reflexivity|]. cbn [sorted_of].
  rewrite sort_insert_priced. unfold priced in *. cbn [List.filter].
  by rewrite IH.
Qed.

(** The first element of the sorted array is the leftmost minimum. *)
Lemma head_sort_insert x l :
  head (sort_insert by_price x l) =
    match head l with
    | None => Some x
    | Some y => if num_lt (price y) (price x) then Some y else Some x
    end.
Proof.
  destruct l as [|y l]; [reflexivity|]. simpl.
  destruct (SortCompare by_price x y) eqn:Hc.
  3: { apply SortCompare_by_price in Hc. by rewrite Hc. }
  all: destruct (num_lt (price y) (price x)) eqn:E; [|reflexivity];
    apply SortCompare_by_price in E; congruence.
Qed.

Lemma head_sorted_of l : head (sorted_of by_price l) = leftmost_min l.
Proof.
  induction l as [|x l IH]; [reflexivity|]. cbn [sorted_of leftmost_min].
  by rewrite head_sort_insert, IH.
Qed.

(** ** What the closures compute on a heap *)

Lemma imap_no_index {B} (f : observation -> B) (l : list observation) :
  imap (fun _ x => f x) l = f <$> l.
Proof. exact (imap_const f l). Qed.

Lemma series_chart_of sorted : series (chart_of sorted) = sorted.
Proof.
  unfold series, chart_of. simpl.
  induction sorted as [|[s p] l IH]; [reflexivity|].
  cbn. by rewrite IH.
Qed.

Lemma views_getLowestPrice :
  Search.getLowestPrice = GuestSearch.getLowestPrice.
Proof. reflexivity. Qed.

Lemma views_prepareChartData :
  Search.prepareChartData = GuestSearch.prepareChartData.
Proof. reflexivity. Qed.

Lemma views_renderResults :
  Search.renderResults = GuestSearch.renderResults.
Proof. reflexivity. Qed.

Lemma getLowestPrice_no_entry r productId h :
  entry r productId = None ->
  GuestSearch.getLowestPrice (Some r) productId h = (None, h).
Proof.
  unfold entry, GuestSearch.getLowestPrice.
  destruct (prices r) as [m|]; [|reflexivity].
  by intros ->.
Qed.

Lemma prepareChartData_no_entry r productId h :
  entry r productId = None ->
  GuestSearch.prepareChartData (Some r) productId h = (None, h).
Proof.
  unfold entry, GuestSearch.prepareChartData.
  destruct (prices r) as [m|]; [|reflexivity].
  by intros ->.
Qed.

Lemma getLowestPrice_run r productId l h :
  entry r productId = Some l ->
  GuestSearch.getLowestPrice (Some r) productId h =
    (match default [] (h !! l) with
     | [] => None
     | x :: xs => Some (foldl cheaper x (x :: xs))
     end, h).
Proof.
  unfold entry, GuestSearch.getLowestPrice.
  destruct (prices r) as [m|]; [|discriminate].
  intros ->. unfold bind at 1. unfold read at 1.
  destruct (default [] (h !! l)) as [|x xs] eqn:E; simpl; [reflexivity|].
  unfold Array_reduce, bind, read, ret. by rewrite E.
Qed.

Lemma sortedPrices_run l h :
  GuestSearch.sortedPrices l h =
    (fresh (dom h),
     <[fresh (dom h) := sorted_of by_price (default [] (h !! l))]> h).
Proof.
  unfold GuestSearch.sortedPrices, spread, Array_sort, alloc, read, write,
    bind, ret.
  rewrite lookup_insert_eq. simpl. by rewrite insert_insert_eq.
Qed.

Lemma prepareChartData_run r productId l h :
  entry r productId = Some l ->
  GuestSearch.prepareChartData (Some r) productId h =
    (Some (chart_of (sorted_of by_price (default [] (h !! l)))),
     <[fresh (dom h) := sorted_of by_price (default [] (h !! l))]> h).
Proof.
  unfold entry, GuestSearch.prepareChartData.
  destruct (prices r) as [m|]; [|discriminate].
  intros ->. unfold bind at 1. rewrite sortedPrices_run.
  cbv [bind Array_map read ret]. rewrite lookup_insert_eq. simpl.
  unfold chart_of. by rewrite !imap_no_index.
Qed.

(** A fresh location never hides an allocated array. *)
Lemma insert_fresh_lookup (h : gmap loc (list observation)) l xs ys :
  h !! l = Some xs -> <[fresh (dom h) := ys]> h !! l = Some xs.
Proof.
  intros Hl. rewrite lookup_insert_ne; [exact Hl|].
  intros Heq. apply (is_fresh (dom h)). rewrite Heq.
  apply elem_of_dom. by exists xs.
Qed.

(** Reading [l] after a sorted copy was stored at a fresh location gives
    what it gave before, also when [l] was not allocated. *)
Lemma insert_fresh_read (h : gmap loc (list observation)) l :
  default []
    (<[fresh (dom h) := sorted_of by_price (default [] (h !! l))]> h !! l) =
  default [] (h !! l).
Proof.
  destruct (h !! l) as [xs|] eqn:Hl.
  - by rewrite (insert_fresh_lookup _ _ _ _ Hl).
  - destruct (decide (fresh (dom h) = l)) as [->|Hne].
    + by rewrite lookup_insert_eq.
    + by rewrite lookup_insert_ne, Hl.
Qed.

Lemma foldl_cheaper_elem a l : foldl cheaper a l ∈ a :: l.
Proof.
  revert a. induction l as [|x l IH]; intros a; simpl; [left|].
  specialize (IH (cheaper a x)). unfold cheaper in *.
  destruct (num_lt (price x) (price a)).
  - by right.
  - apply elem_of_cons in IH as [->|IH]; [left | by do 2 right].
Qed.

(** The render loop visits the products in order, whatever the closures
    do to the heap on the way. *)
Lemma mapM_Forall2 {A B} (P : A -> B -> Prop) (f : A -> M B) (l : list A) :
  (forall x h, P x (f x h).1) -> forall h, Forall2 P l (mapM f l h).1.
Proof.
  intros Hf. induction l as [|x l IH]; intros h; cbn [mapM].
  - constructor.
  - unfold bind, ret. pose proof (Hf x h) as Hx.
    destruct (f x h) as [y h1]. pose proof (IH h1) as Hl.
    destruct (mapM f l h1) as [ys h2]. by constructor.
Qed.

Lemma renderResults_cards r h :
  Forall2
    (fun p c =>
       shown c = p /\ key c = id p
       /\ (entry r (id p) = None -> bestPrice c = None /\ chart c = None))
    (default [] (products r)) (GuestSearch.renderResults (Some r) h).1.
Proof.
  unfold GuestSearch.renderResults.
  destruct (products r) as [ps|]; [|constructor].
  destruct ps as [|p ps]; [constructor|].
  change (0 <? length (p :: ps))%nat with true. cbv iota.
  apply mapM_Forall2. intros x h0. unfold bind, ret.
  destruct (GuestSearch.getLowestPrice (Some r) (id x) h0) as [o h1] eqn:Ho.
  destruct (GuestSearch.prepareChartData (Some r) (id x) h1) as [c h2] eqn:Hc.
  simpl. split; [reflexivity|]. split; [reflexivity|].
  intros Hnone.
  rewrite (getLowestPrice_no_entry _ _ _ Hnone) in Ho.
  rewrite (prepareChartData_no_entry _ _ _ Hnone) in Hc.
  split; congruence.
Qed.

(** ** The properties *)

(** C1: on a non-empty array of observations with numeric prices,
    [getLowestPrice] (in both views) returns an observation that sits at
    some position [i] of the input, whose price is less than or equal to
    the price of every observation of the input, and every observation
    before position [i] is strictly dearer: among the observations
    sharing the minimum it is the first in input order.  The heap is left
    as it was. *)
Theorem getLowestPrice_leftmost_minimum r productId l h xs :
  entry r productId = Some l ->
  h !! l = Some xs ->
  xs <> [] ->
  Forall numeric xs ->
  exists (o : observation) (i : nat),
    GuestSearch.getLowestPrice (Some r) productId h = (Some o, h)
    /\ Search.getLowestPrice (Some r) productId h = (Some o, h)
    /\ xs !! i = Some o
    /\ (forall o', o' ∈ xs -> price_le o o')
    /\ (forall (j : nat) o', (j < i)%nat -> xs !! j = Some o' ->
          num_lt (price o) (price o') = true).
Proof.
  intros Hentry Hl Hne Hnum.
  rewrite views_getLowestPrice, (getLowestPrice_run _ _ _ _ Hentry), Hl.
  destruct xs as [|x xs']; [done|]. cbn [from_option Datatypes.id].
  rewrite (reduce_from_first _ _ Hnum).
  destruct (leftmost_min (x :: xs')) as [o|] eqn:Hmin;
    [|by apply leftmost_min_None in Hmin].
  destruct (leftmost_min_spec _ _ Hnum Hmin) as (i & Hi & Hall & Hbefore).
  exists o, i. simpl. repeat split; try done.
  intros o' Ho'. rewrite Forall_forall in Hnum.
  apply num_lt_false_le; [by apply Hnum| |by apply Hall].
  apply Hnum. apply list_elem_of_lookup. by exists i.
Qed.

Lemma getLowestPrice_leftmost_minimum_witness :
  exists (o : observation) (i : nat),
    GuestSearch.getLowestPrice (Some example_results) "P1" example_heap
      = (Some o, example_heap)
    /\ Search.getLowestPrice (Some example_results) "P1" example_heap
      = (Some o, example_heap)
    /\ [store_A; store_B; store_C] !! i = Some o
    /\ (forall o', o' ∈ [store_A; store_B; store_C] -> price_le o o')
    /\ (forall (j : nat) o', (j < i)%nat ->
          [store_A; store_B; store_C] !! j = Some o' ->
          num_lt (price o) (price o') = true).
Proof.
  apply (getLowestPrice_leftmost_minimum example_results "P1" 1%positive).
  - reflexivity.
  - reflexivity.
  - discriminate.
  - repeat constructor.
Defined.

(** C2: for every array of observations with numeric prices (the empty one
    included), [prepareChartData] (in both views) returns a chart whose
    series is sorted non-decreasing by price and is a permutation of the
    input: nothing added, dropped or duplicated.  The series is the
    content of the array [sortedPrices]. *)
Theorem prepareChartData_sorted_permutation r productId l h xs :
  entry r productId = Some l ->
  h !! l = Some xs ->
  Forall numeric xs ->
  exists c : chartData,
    (GuestSearch.prepareChartData (Some r) productId h).1 = Some c
    /\ (Search.prepareChartData (Some r) productId h).1 = Some c
    /\ (GuestSearch.sortedPrices l h).2 !! (GuestSearch.sortedPrices l h).1
         = Some (series c)
    /\ StronglySorted price_le (series c)
    /\ series c ≡ₚ xs.
Proof.
  intros Hentry Hl Hnum.
  rewrite views_prepareChartData, (prepareChartData_run _ _ _ _ Hentry).
  rewrite sortedPrices_run, Hl. cbn [fst snd from_option Datatypes.id].
  eexists. split; [reflexivity|]. split; [reflexivity|].
  rewrite series_chart_of, lookup_insert_eq.
  split; [reflexivity|]. split.
  - by apply sorted_of_sorted.
  - apply sorted_of_perm.
Qed.

Lemma prepareChartData_sorted_permutation_witness :
  exists c : chartData,
    (GuestSearch.prepareChartData (Some example_results) "P1" example_heap).1
      = Some c
    /\ (Search.prepareChartData (Some example_results) "P1" example_heap).1
      = Some c
    /\ (GuestSearch.sortedPrices 1%positive example_heap).2
         !! (GuestSearch.sortedPrices 1%positive example_heap).1
         = Some (series c)
    /\ StronglySorted price_le (series c)
    /\ series c ≡ₚ [store_A; store_B; store_C].
Proof.
  apply (prepareChartData_sorted_permutation example_results "P1" 1%positive).
  - reflexivity.
  - reflexivity.
  - repeat constructor.
Defined.

(** C3: on a heap whose arrays hold numeric prices, whenever
    [getLowestPrice] and [prepareChartData] both return a result for a
    product, the first element of the chart's series (the bar flagged as
    cheapest) is the observation [getLowestPrice] returned, ties
    included; the same holds in the authenticated view. *)
Theorem first_bar_is_lowest results productId h o c :
  (forall l xs, h !! l = Some xs -> Forall numeric xs) ->
  (GuestSearch.getLowestPrice results productId h).1 = Some o ->
  (GuestSearch.prepareChartData results productId h).1 = Some c ->
  head (series c) = Some o
  /\ (Search.getLowestPrice results productId h).1 = Some o
  /\ (Search.prepareChartData results productId h).1 = Some c.
Proof.
  intros Hheap Ho Hc.
  rewrite views_getLowestPrice, views_prepareChartData.
  split; [|by split].
  destruct results as [r|]; [|discriminate].
  destruct (entry r productId) as [l|] eqn:Hentry.
  2: { by rewrite (getLowestPrice_no_entry _ _ _ Hentry) in Ho. }
  rewrite (getLowestPrice_run _ _ _ _ Hentry) in Ho.
  rewrite (prepareChartData_run _ _ _ _ Hentry) in Hc.
  cbn [fst] in Ho, Hc. injection Hc as <-. rewrite series_chart_of.
  rewrite head_sorted_of.
  destruct (h !! l) as [xs|] eqn:Hl; [|discriminate].
  cbn [from_option Datatypes.id] in *.
  destruct xs as [|x xs']; [discriminate|].
  rewrite (reduce_from_first _ _ (Hheap _ _ Hl)) in Ho.
  destruct (leftmost_min (x :: xs')) as [m|] eqn:Hmin;
    [|by apply leftmost_min_None in Hmin].
  exact Ho.
Qed.

Lemma first_bar_is_lowest_witness :
  head (series (chart_of [store_C; store_A; store_B])) = Some store_C
  /\ (Search.getLowestPrice (Some example_results) "P1" example_heap).1
       = Some store_C
  /\ (Search.prepareChartData (Some example_results) "P1" example_heap).1
       = Some (chart_of [store_C; store_A; store_B]).
Proof.
  apply (first_bar_is_lowest (Some example_results) "P1" example_heap).
  - intros l xs Hl. unfold example_heap in Hl.
    apply lookup_singleton_Some in Hl as [_ <-]. repeat constructor.
  - reflexivity.
  - reflexivity.
Defined.

(** C5: [prepareChartData] sorts stably.  For every input array with
    numeric prices and every price [p], the observations priced [p]
    appear in the series in the order they have in the input (in both
    views); and on [[{A,2.00},{B,2.00},{C,1.50}]] the series is
    [[{C,1.50},{A,2.00},{B,2.00}]], A before B.  With a NaN price the
    comparator is inconsistent and the order is the engine's choice:
    nothing is stated there. *)
Theorem prepareChartData_stable :
  (forall r productId l h xs c p,
     entry r productId = Some l ->
     h !! l = Some xs ->
     Forall numeric xs ->
     (GuestSearch.prepareChartData (Some r) productId h).1 = Some c ->
     priced p (series c) = priced p xs
     /\ (Search.prepareChartData (Some r) productId h).1 = Some c)
  /\ (exists c,
        (GuestSearch.prepareChartData (Some example_results) "P1"
           example_heap).1 = Some c
        /\ series c = [store_C; store_A; store_B]).
Proof.
  split.
  - intros r productId l h xs c p Hentry Hl _ Hc.
    rewrite views_prepareChartData. split; [|exact Hc].
    rewrite (prepareChartData_run _ _ _ _ Hentry), Hl in Hc.
    cbn [fst from_option Datatypes.id] in Hc. injection Hc as <-.
    rewrite series_chart_of. apply sorted_of_priced.
  - eexists. split; reflexivity.
Qed.

Lemma prepareChartData_stable_witness :
  priced (Fin 2) (series (chart_of [store_C; store_A; store_B]))
    = priced (Fin 2) [store_A; store_B; store_C]
  /\ (Search.prepareChartData (Some example_results) "P1" example_heap).1
       = Some (chart_of [store_C; store_A; store_B]).
Proof.
  apply (proj1 prepareChartData_stable example_results "P1" 1%positive
           example_heap [store_A; store_B; store_C]).
  - reflexivity.
  - reflexivity.
  - repeat constructor.
  - reflexivity.
Defined.

(** C4, evaluated: with [results.prices["P1"] = []], [getLowestPrice]
    returns null but [prepareChartData] returns a chart object with empty
    [labels] and [data], so the card of P1 has no "Best Price" line and
    still draws a (blank) chart. *)
Theorem empty_array_chart_not_absent :
  (GuestSearch.getLowestPrice (Some empty_results) "P1" empty_heap).1 = None
  /\ (GuestSearch.prepareChartData (Some empty_results) "P1" empty_heap).1
       = Some {| labels := [];
                 datasets := [ {| label := "Price (£)"; data := [];
                                  backgroundColor := []; borderColor := [];
                                  borderWidth := 1 |} ] |}
  /\ (Search.getLowestPrice (Some empty_results) "P1" empty_heap).1 = None
  /\ (Search.prepareChartData (Some empty_results) "P1" empty_heap).1
       = (GuestSearch.prepareChartData (Some empty_results) "P1" empty_heap).1
  /\ (GuestSearch.renderResults (Some empty_results) empty_heap).1
       = [ {| key := "P1"; shown := product_P1; bestPrice := None;
              chart := Some (chart_of []) |} ].
Proof. repeat split; reflexivity. Qed.

(** C6, evaluated: with [results.prices = {}] the product identifier
    ["constructor"] has no entry of its own, yet neither closure returns
    null for it.  The lookup finds [Object.prototype.constructor], which
    is truthy and has [length] 1, so both guards pass and both closures
    raise a [TypeError], in both views; the render of the results
    raises with them and shows no card at all. *)
Theorem inherited_key_raises :
  entry inherited_results "constructor" = None
  /\ GuestSearch.getLowestPrice_with_prototype (Some inherited_results)
       "constructor" ∅ = (ThrowTypeError, ∅)
  /\ GuestSearch.prepareChartData_with_prototype (Some inherited_results)
       "constructor" ∅ = (ThrowTypeError, ∅)
  /\ Search.getLowestPrice_with_prototype (Some inherited_results)
       "constructor" ∅ = (ThrowTypeError, ∅)
  /\ Search.prepareChartData_with_prototype (Some inherited_results)
       "constructor" ∅ = (ThrowTypeError, ∅)
  /\ GuestSearch.renderResults_with_prototype (Some inherited_results) ∅
     = (ThrowTypeError, ∅)
  /\ Search.renderResults_with_prototype (Some inherited_results) ∅
     = (ThrowTypeError, ∅).
Proof. repeat split; reflexivity. Qed.

(** C8: the closures are deterministic functions of their input.  Calling
    [prepareChartData] a second time, on the heap the first call left,
    returns a chart equal to the first in content and order; the same
    holds for [getLowestPrice], also when [prepareChartData] ran in
    between; and in both views. *)
Theorem closures_deterministic results productId h :
  (GuestSearch.prepareChartData results productId
     (GuestSearch.prepareChartData results productId h).2).1
    = (GuestSearch.prepareChartData results productId h).1
  /\ (GuestSearch.getLowestPrice results productId
        (GuestSearch.getLowestPrice results productId h).2).1
    = (GuestSearch.getLowestPrice results productId h).1
  /\ (GuestSearch.getLowestPrice results productId
        (GuestSearch.prepareChartData results productId h).2).1
    = (GuestSearch.getLowestPrice results productId h).1
  /\ (Search.prepareChartData results productId
        (Search.prepareChartData results productId h).2).1
    = (Search.prepareChartData results productId h).1
  /\ (Search.getLowestPrice results productId
        (Search.getLowestPrice results productId h).2).1
    = (Search.getLowestPrice results productId h).1.
Proof.
  rewrite views_getLowestPrice, views_prepareChartData.
  assert (Hchart :
    (GuestSearch.prepareChartData results productId
       (GuestSearch.prepareChartData results productId h).2).1
    = (GuestSearch.prepareChartData results productId h).1).
  { destruct results as [r|]; [|reflexivity].
    destruct (entry r productId) as [l|] eqn:Hentry.
    - rewrite !(prepareChartData_run _ _ _ _ Hentry). cbn [fst snd].
      by rewrite insert_fresh_read.
    - by rewrite !(prepareChartData_no_entry _ _ _ Hentry). }
  assert (Hlow :
    (GuestSearch.getLowestPrice results productId
       (GuestSearch.getLowestPrice results productId h).2).1
    = (GuestSearch.getLowestPrice results productId h).1).
  { destruct results as [r|]; [|reflexivity].
    destruct (entry r productId) as [l|] eqn:Hentry.
    - by rewrite !(getLowestPrice_run _ _ _ _ Hentry).
    - by rewrite !(getLowestPrice_no_entry _ _ _ Hentry). }
  repeat split; try done.
  destruct results as [r|]; [|reflexivity].
  destruct (entry r productId) as [l|] eqn:Hentry.
  - rewrite (prepareChartData_run _ _ _ _ Hentry).
    rewrite !(getLowestPrice_run _ _ _ _ Hentry). cbn [fst snd].
    by rewrite insert_fresh_read.
  - by rewrite (prepareChartData_no_entry _ _ _ Hentry).
Qed.

(** C9: the closures of the guest view and of the authenticated view are
    extensionally equal: on every state, product identifier and heap they
    return the same result and leave the same heap, and the two views
    render the same cards. *)
Theorem views_agree results productId h :
  GuestSearch.getLowestPrice results productId h
    = Search.getLowestPrice results productId h
  /\ GuestSearch.prepareChartData results productId h
    = Search.prepareChartData results productId h
  /\ GuestSearch.renderResults results h = Search.renderResults results h.
Proof. repeat split. Qed.

(** C10: [prepareChartData] never mutates its input.  Every array of the
    heap, the input array among them, holds the same elements in the same
    order after the call; the sort runs on a copy, stored at a location
    different from the input's. *)
Theorem prepareChartData_preserves_input results productId h l xs :
  h !! l = Some xs ->
  (GuestSearch.prepareChartData results productId h).2 !! l = Some xs
  /\ (Search.prepareChartData results productId h).2 !! l = Some xs
  /\ (GuestSearch.sortedPrices l h).1 <> l
  /\ (GuestSearch.sortedPrices l h).2 !! l = Some xs.
Proof.
  intros Hl. rewrite views_prepareChartData, sortedPrices_run. cbn [fst snd].
  assert (Hkeep :
    (GuestSearch.prepareChartData results productId h).2 !! l = Some xs).
  { destruct results as [r|]; [|exact Hl].
    destruct (entry r productId) as [l'|] eqn:Hentry.
    - rewrite (prepareChartData_run _ _ _ _ Hentry). cbn [snd].
      by apply insert_fresh_lookup.
    - by rewrite (prepareChartData_no_entry _ _ _ Hentry). }
  repeat split; try done.
  - intros Heq. apply (is_fresh (dom h)). rewrite Heq.
    apply elem_of_dom. by exists xs.
  - by apply insert_fresh_lookup.
Qed.

Lemma prepareChartData_preserves_input_witness :
  (GuestSearch.prepareChartData (Some example_results) "P1" example_heap).2
    !! 1%positive = Some [store_A; store_B; store_C]
  /\ (Search.prepareChartData (Some example_results) "P1" example_heap).2
    !! 1%positive = Some [store_A; store_B; store_C]
  /\ (GuestSearch.sortedPrices 1%positive example_heap).1 <> 1%positive
  /\ (GuestSearch.sortedPrices 1%positive example_heap).2 !! 1%positive
       = Some [store_A; store_B; store_C].
Proof.
  apply (prepareChartData_preserves_input (Some example_results) "P1"
           example_heap 1%positive).
  reflexivity.
Defined.

(** C7, refuted on two inputs.  In [[{A, 2}, {B, -1}]] the price of B is
    negative, and B is what [getLowestPrice] returns and the first bar of
    the chart.  In [[{A, NaN}, {B, 1}]] the price of A is not a number,
    and A is what [getLowestPrice] returns, although B is cheaper, and A
    is in the chart. *)
Lemma invalid_price_not_excluded :
  (valid_price (price store_negative) = false
   /\ (GuestSearch.getLowestPrice (Some example_results) "P1"
         negative_heap).1 = Some store_negative
   /\ exists c,
        (GuestSearch.prepareChartData (Some example_results) "P1"
           negative_heap).1 = Some c
        /\ series c = [store_negative; store_A])
  /\ (valid_price (price store_NaN) = false
      /\ (GuestSearch.getLowestPrice (Some example_results) "P1"
            NaN_heap).1 = Some store_NaN
      /\ exists c,
           (GuestSearch.prepareChartData (Some example_results) "P1"
              NaN_heap).1 = Some c
           /\ store_NaN ∈ series c).
Proof.
  split.
  - split; [reflexivity|]. split; [reflexivity|].
    eexists. split; reflexivity.
  - split; [reflexivity|]. split; [reflexivity|].
    exists (chart_of [store_NaN; store_one]). split; [reflexivity|].
    rewrite series_chart_of. left.
Qed.

(** C7, as the code has it: no observation is excluded on account of its
    price.  For every array of observations, whatever the prices
    (negative, infinite or NaN), both closures return a value in both
    views; the series of the chart is a permutation of the whole input;
    and [getLowestPrice] returns null on the empty array and an element
    of the input otherwise. *)
Theorem prices_not_validated r productId l h xs :
  entry r productId = Some l ->
  h !! l = Some xs ->
  (exists c,
     (GuestSearch.prepareChartData (Some r) productId h).1 = Some c
     /\ (Search.prepareChartData (Some r) productId h).1 = Some c
     /\ series c ≡ₚ xs)
  /\ ((xs = []
       /\ (GuestSearch.getLowestPrice (Some r) productId h).1 = None
       /\ (Search.getLowestPrice (Some r) productId h).1 = None)
      \/ (exists o,
            (GuestSearch.getLowestPrice (Some r) productId h).1 = Some o
            /\ (Search.getLowestPrice (Some r) productId h).1 = Some o
            /\ o ∈ xs)).
Proof.
  intros Hentry Hl.
  rewrite views_getLowestPrice, views_prepareChartData.
  rewrite (prepareChartData_run _ _ _ _ Hentry).
  rewrite (getLowestPrice_run _ _ _ _ Hentry), Hl.
  cbn [fst from_option Datatypes.id]. split.
  - eexists. split; [reflexivity|]. split; [reflexivity|].
    rewrite series_chart_of. apply sorted_of_perm.
  - destruct xs as [|x xs']; [by left|]. right.
    eexists. split; [reflexivity|]. split; [reflexivity|].
    cbn [foldl]. unfold cheaper at 2. rewrite num_lt_irrefl.
    apply foldl_cheaper_elem.
Qed.

Lemma prices_not_validated_witness :
  (exists c,
     (GuestSearch.prepareChartData (Some example_results) "P1" NaN_heap).1
       = Some c
     /\ (Search.prepareChartData (Some example_results) "P1" NaN_heap).1
       = Some c
     /\ series c ≡ₚ [store_NaN; store_one])
  /\ (([store_NaN; store_one] = []
       /\ (GuestSearch.getLowestPrice (Some example_results) "P1"
             NaN_heap).1 = None
       /\ (Search.getLowestPrice (Some example_results) "P1"
             NaN_heap).1 = None)
      \/ (exists o,
            (GuestSearch.getLowestPrice (Some example_results) "P1"
               NaN_heap).1 = Some o
            /\ (Search.getLowestPrice (Some example_results) "P1"
                  NaN_heap).1 = Some o
            /\ o ∈ [store_NaN; store_one])).
Proof.
  apply (prices_not_validated example_results "P1" 1%positive NaN_heap).
  - reflexivity.
  - reflexivity.
Defined.

(** ** Further properties of the closures *)

Lemma num_le_not_lt a b : num_le a b -> num_lt b a = false.
Proof.
  destruct a as [x| | |], b as [y| | |]; simpl; try tauto.
  destruct (Qlt_le_dec y x); [lra | reflexivity].
Qed.

(** When each closure returns an object rather than null:
    [getLowestPrice] needs the state, the mapping, an array for the
    product and at least one element in it; [prepareChartData] needs the
    first three only. *)
Theorem closures_result_iff results productId h :
  (is_Some (GuestSearch.getLowestPrice results productId h).1 <->
     exists r l x xs,
       results = Some r /\ entry r productId = Some l
       /\ h !! l = Some (x :: xs))
  /\ (is_Some (GuestSearch.prepareChartData results productId h).1 <->
        exists r l, results = Some r /\ entry r productId = Some l)
  /\ (is_Some (Search.getLowestPrice results productId h).1 <->
        is_Some (GuestSearch.getLowestPrice results productId h).1)
  /\ (is_Some (Search.prepareChartData results productId h).1 <->
        is_Some (GuestSearch.prepareChartData results productId h).1).
Proof.
  rewrite views_getLowestPrice, views_prepareChartData.
  split; [|split; [|done]].
  - split.
    + destruct results as [r|]; [|by intros [? [=]]].
      destruct (entry r productId) as [l|] eqn:Hentry.
      * rewrite (getLowestPrice_run _ _ _ _ Hentry). cbn [fst].
        destruct (h !! l) as [[|x xs]|] eqn:Hl; cbn; try by intros [? [=]].
        intros _. by exists r, l, x, xs.
      * rewrite (getLowestPrice_no_entry _ _ _ Hentry). by intros [? [=]].
    + intros (r & l & x & xs & -> & Hentry & Hl).
      rewrite (getLowestPrice_run _ _ _ _ Hentry), Hl. cbn. eauto.
  - split.
    + destruct results as [r|]; [|by intros [? [=]]].
      destruct (entry r productId) as [l|] eqn:Hentry.
      * intros _. by exists r, l.
      * rewrite (prepareChartData_no_entry _ _ _ Hentry). by intros [? [=]].
    + intros (r & l & -> & Hentry).
      rewrite (prepareChartData_run _ _ _ _ Hentry). cbn. eauto.
Qed.

Lemma imap_lookup_first {A} (f : nat -> observation -> A) l i y :
  imap f l !! i = Some y -> exists o, l !! i = Some o /\ y = f i o.
Proof.
  rewrite list_lookup_imap. destruct (l !! i) as [o|]; [|discriminate].
  intros [= <-]. by exists o.
Qed.

(** The chart object is well formed for the bar chart: one dataset, and
    [labels], [data], [backgroundColor] and [borderColor] all have one
    entry per observation of the input; the green colours sit at index 0
    and nowhere else. *)
Theorem chart_arrays_aligned r productId l h xs c :
  entry r productId = Some l ->
  h !! l = Some xs ->
  (GuestSearch.prepareChartData (Some r) productId h).1 = Some c ->
  exists d,
    datasets c = [d]
    /\ length (labels c) = length xs
    /\ length (data d) = length xs
    /\ length (backgroundColor d) = length xs
    /\ length (borderColor d) = length xs
    /\ (forall (i : nat) col, backgroundColor d !! i = Some col ->
          (col = "rgba(34, 197, 94, 0.7)" <-> i = 0%nat)
          /\ (col = "rgba(99, 102, 241, 0.5)" <-> i <> 0%nat))
    /\ (forall (i : nat) col, borderColor d !! i = Some col ->
          (col = "rgb(34, 197, 94)" <-> i = 0%nat)
          /\ (col = "rgb(79, 70, 229)" <-> i <> 0%nat))
    /\ (Search.prepareChartData (Some r) productId h).1 = Some c.
Proof.
  intros Hentry Hl. rewrite views_prepareChartData.
  rewrite (prepareChartData_run _ _ _ _ Hentry), Hl.
  cbn [fst from_option Datatypes.id]. intros [= <-].
  eexists. split; [reflexivity|].
  cbn [chart_of labels data backgroundColor borderColor].
  rewrite !length_fmap, !length_imap, sorted_of_length.
  do 4 (split; [reflexivity|]).
  split; [|split; [|reflexivity]].
  all: intros i col Hcol; apply imap_lookup_first in Hcol as (o & _ & ->).
  all: destruct i as [|i]; cbn; split; split; (done || lia).
Qed.

Lemma chart_arrays_aligned_witness :
  exists d,
    datasets (chart_of [store_C; store_A; store_B]) = [d]
    /\ length (labels (chart_of [store_C; store_A; store_B])) = 3%nat
    /\ length (data d) = 3%nat
    /\ length (backgroundColor d) = 3%nat
    /\ length (borderColor d) = 3%nat
    /\ (forall (i : nat) col, backgroundColor d !! i = Some col ->
          (col = "rgba(34, 197, 94, 0.7)" <-> i = 0%nat)
          /\ (col = "rgba(99, 102, 241, 0.5)" <-> i <> 0%nat))
    /\ (forall (i : nat) col, borderColor d !! i = Some col ->
          (col = "rgb(34, 197, 94)" <-> i = 0%nat)
          /\ (col = "rgb(79, 70, 229)" <-> i <> 0%nat))
    /\ (Search.prepareChartData (Some example_results) "P1" example_heap).1
         = Some (chart_of [store_C; store_A; store_B]).
Proof.
  apply (chart_arrays_aligned example_results "P1" 1%positive example_heap
           [store_A; store_B; store_C]).
  - reflexivity.
  - reflexivity.
  - reflexivity.
Defined.

Lemma sorted_of_fixes_sorted l :
  Sorted price_le l -> sorted_of by_price l = l.
Proof.
  induction 1 as [|x l Hs IH Hhd]; [reflexivity|]. cbn [sorted_of].
  rewrite IH. destruct Hhd as [|y l' Hxy]; [reflexivity|]. cbn [sort_insert].
  destruct (SortCompare by_price x y) eqn:Hc; try reflexivity.
  apply SortCompare_by_price in Hc.
  by rewrite (num_le_not_lt _ _ Hxy) in Hc.
Qed.

(** An array that already is in non-decreasing price order comes out of
    [prepareChartData] in exactly the order it has: the bars are the
    input, element for element. *)
Theorem prepareChartData_keeps_sorted_input r productId l h xs :
  entry r productId = Some l ->
  h !! l = Some xs ->
  Sorted price_le xs ->
  exists c,
    (GuestSearch.prepareChartData (Some r) productId h).1 = Some c
    /\ (Search.prepareChartData (Some r) productId h).1 = Some c
    /\ series c = xs
    /\ labels c = store <$> xs.
Proof.
  intros Hentry Hl Hs. rewrite views_prepareChartData.
  rewrite (prepareChartData_run _ _ _ _ Hentry), Hl.
  cbn [fst from_option Datatypes.id]. rewrite (sorted_of_fixes_sorted _ Hs).
  eexists. split; [reflexivity|]. split; [reflexivity|].
  split; [apply series_chart_of | reflexivity].
Qed.

Lemma prepareChartData_keeps_sorted_input_witness :
  exists c,
    (GuestSearch.prepareChartData (Some example_results) "P1"
       {[ 1%positive := [store_C; store_A; store_B] ]}).1 = Some c
    /\ (Search.prepareChartData (Some example_results) "P1"
          {[ 1%positive := [store_C; store_A; store_B] ]}).1 = Some c
    /\ series c = [store_C; store_A; store_B]
    /\ labels c = store <$> [store_C; store_A; store_B].
Proof.
  apply (prepareChartData_keeps_sorted_input example_results "P1" 1%positive).
  - reflexivity.
  - reflexivity.
  - repeat constructor; cbn; lra.
Defined.

Lemma foldl_cheaper_NaN a l :
  is_NaN (price a) = true -> foldl cheaper a l = a.
Proof.
  intros Ha. induction l as [|x l IH]; [reflexivity|]. cbn [foldl].
  unfold cheaper at 2.
  replace (num_lt (price x) (price a)) with false; [exact IH|].
  destruct (price a); try discriminate. by destruct (price x).
Qed.

(** A first observation whose price is NaN wins: [getLowestPrice] returns
    [prices[0]] whatever the other prices are, because no comparison
    with NaN is true. *)
Theorem getLowestPrice_NaN_first r productId l h x xs :
  entry r productId = Some l ->
  h !! l = Some (x :: xs) ->
  is_NaN (price x) = true ->
  GuestSearch.getLowestPrice (Some r) productId h = (Some x, h)
  /\ Search.getLowestPrice (Some r) productId h = (Some x, h).
Proof.
  intros Hentry Hl Hx. rewrite views_getLowestPrice.
  rewrite (getLowestPrice_run _ _ _ _ Hentry), Hl.
  cbn [from_option Datatypes.id]. by rewrite (foldl_cheaper_NaN _ _ Hx).
Qed.

Lemma getLowestPrice_NaN_first_witness :
  GuestSearch.getLowestPrice (Some example_results) "P1" NaN_heap
    = (Some store_NaN, NaN_heap)
  /\ Search.getLowestPrice (Some example_results) "P1" NaN_heap
    = (Some store_NaN, NaN_heap).
Proof.
  apply (getLowestPrice_NaN_first example_results "P1" 1%positive NaN_heap
           store_NaN [store_one]).
  - reflexivity.
  - reflexivity.
  - reflexivity.
Defined.

Lemma foldl_cheaper_numeric_only a l :
  foldl cheaper a l = foldl cheaper a (numeric_only l).
Proof.
  revert a. induction l as [|x l IH]; intros a; [reflexivity|].
  cbn [foldl numeric_only List.filter].
  destruct (is_NaN (price x)) eqn:Hx; cbn [negb foldl].
  - replace (cheaper a x) with a; [apply IH|].
    unfold cheaper. destruct (price x); try discriminate.
    by destruct (price a).
  - apply IH.
Qed.

Lemma numeric_only_Forall l : Forall numeric (numeric_only l).
Proof.
  apply Forall_forall. intros o Ho. apply list_elem_of_In in Ho.
  apply List.filter_In in Ho as [_ Ho]. unfold numeric.
  by destruct (is_NaN (price o)).
Qed.

Lemma numeric_only_elem o l : o ∈ numeric_only l <-> o ∈ l /\ numeric o.
Proof.
  unfold numeric_only, numeric. rewrite !list_elem_of_In, List.filter_In.
  destruct (is_NaN (price o)); cbn; intuition congruence.
Qed.

(** When the first price is a number, the NaN prices further on are
    skipped: [getLowestPrice] returns an observation with a numeric
    price that is less than or equal to every numeric price of the
    array. *)
Theorem getLowestPrice_skips_NaN r productId l h x xs :
  entry r productId = Some l ->
  h !! l = Some (x :: xs) ->
  numeric x ->
  exists o,
    GuestSearch.getLowestPrice (Some r) productId h = (Some o, h)
    /\ Search.getLowestPrice (Some r) productId h = (Some o, h)
    /\ o ∈ x :: xs
    /\ numeric o
    /\ (forall o', o' ∈ x :: xs -> numeric o' -> price_le o o').
Proof.
  intros Hentry Hl Hx. rewrite views_getLowestPrice.
  rewrite (getLowestPrice_run _ _ _ _ Hentry), Hl.
  cbn [from_option Datatypes.id].
  rewrite foldl_cheaper_numeric_only.
  assert (Hfil : numeric_only (x :: xs) = x :: numeric_only xs).
  { unfold numeric_only. cbn [List.filter]. unfold numeric in Hx.
    by rewrite Hx. }
  rewrite Hfil.
  pose proof (numeric_only_Forall (x :: xs)) as Hnum. rewrite Hfil in Hnum.
  rewrite (reduce_from_first _ _ Hnum).
  destruct (leftmost_min (x :: numeric_only xs)) as [o|] eqn:Hmin;
    [|by apply leftmost_min_None in Hmin].
  destruct (leftmost_min_spec _ _ Hnum Hmin) as (i & Hi & Hall & _).
  assert (Ho : o ∈ numeric_only (x :: xs)).
  { rewrite Hfil. apply list_elem_of_lookup. by exists i. }
  apply numeric_only_elem in Ho as [Ho Hon].
  exists o. cbn [from_option Datatypes.id]. repeat split; try done.
  intros o' Ho' Hn'. apply num_lt_false_le; [done..|].
  apply Hall. rewrite <- Hfil. by apply numeric_only_elem.
Qed.

Lemma getLowestPrice_skips_NaN_witness :
  exists o,
    GuestSearch.getLowestPrice (Some example_results) "P1"
      {[ 1%positive := [store_A; store_NaN; store_one] ]}
      = (Some o, {[ 1%positive := [store_A; store_NaN; store_one] ]})
    /\ Search.getLowestPrice (Some example_results) "P1"
         {[ 1%positive := [store_A; store_NaN; store_one] ]}
      = (Some o, {[ 1%positive := [store_A; store_NaN; store_one] ]})
    /\ o ∈ [store_A; store_NaN; store_one]
    /\ numeric o
    /\ (forall o', o' ∈ [store_A; store_NaN; store_one] -> numeric o' ->
          price_le o o').
Proof.
  apply (getLowestPrice_skips_NaN example_results "P1" 1%positive).
  - reflexivity.
  - reflexivity.
  - reflexivity.
Defined.

(** *** The render loop does not interfere with itself *)







(** ** The search handlers *)

Lemma trimStart_split s :
  exists pre,
    s = (pre ++ trimStart s)%list /\ blank pre
    /\ (forall c, head (trimStart s) = Some c -> isWhiteSpace c = false).
Proof.
  induction s as [|c s (pre & Heq & Hpre & Hhd)]; cbn [trimStart].
  - exists []. repeat split; [constructor | discriminate].
  - destruct (isWhiteSpace c) eqn:Hc.
    + exists (c :: pre). cbn. rewrite <- Heq. repeat split; [|exact Hhd].
      by constructor.
    + exists []. repeat split; [constructor|]. by intros c' [= <-].
Qed.

Lemma trimEnd_split s :
  exists post,
    s = (trimEnd s ++ post)%list /\ blank post
    /\ (forall c, last (trimEnd s) = Some c -> isWhiteSpace c = false).
Proof.
  unfold trimEnd.
  destruct (trimStart_split (reverse s)) as (pre & Heq & Hpre & Hhd).
  exists (reverse pre). split; [|split].
  - rewrite <- reverse_app, <- Heq. by rewrite reverse_involutive.
  - by apply Forall_reverse.
  - intros c. rewrite last_reverse. apply Hhd.
Qed.

(** [trim] removes a blank prefix and a blank suffix and nothing else,
    and what is left neither starts nor ends with white space. *)
Lemma trim_split s :
  exists pre post,
    s = (pre ++ trim s ++ post)%list /\ blank pre /\ blank post
    /\ (forall c, head (trim s) = Some c -> isWhiteSpace c = false)
    /\ (forall c, last (trim s) = Some c -> isWhiteSpace c = false).
Proof.
  unfold trim.
  destruct (trimStart_split s) as (pre & Heq & Hpre & Hhd).
  destruct (trimEnd_split (trimStart s)) as (post & Heq' & Hpost & Hlast).
  exists pre, post. rewrite <- Heq'. repeat split; try done.
  intros c Hc. destruct (trimEnd (trimStart s)) as [|c' t] eqn:Ht;
    [discriminate|]. injection Hc as ->.
  apply Hhd. by rewrite Heq'.
Qed.

Lemma trim_blank s : trim s = [] <-> blank s.
Proof.
  destruct (trim_split s) as (pre & post & Heq & Hpre & Hpost & Hhd & _).
  split.
  - intros Ht. rewrite Heq, Ht. by apply Forall_app.
  - intros Hs. destruct (trim s) as [|c t]; [reflexivity|].
    rewrite Heq in Hs. apply Forall_app in Hs as [_ Hs].
    apply Forall_app in Hs as [Hs _]. apply Forall_inv in Hs.
    by rewrite (Hhd c eq_refl) in Hs.
Qed.

(** A query made of white space only (spaces, tabs, no-break spaces,
    line ends, or nothing at all) is not searched for: in both views the
    handler leaves the state as it is, results included, sends no
    request and raises no notification. *)
Theorem handleSearch_blank_query token response s :
  blank (SearchForm.query s) ->
  GuestSearch.handleSearch response s
    = (s, {| SearchForm.sent := None; SearchForm.toasts := [] |})
  /\ Search.handleSearch token response s
    = (s, {| SearchForm.sent := None; SearchForm.toasts := [] |}).
Proof.
  intros Hb. apply trim_blank in Hb.
  unfold GuestSearch.handleSearch, GuestSearch.handleSearch_submit,
    Search.handleSearch, Search.handleSearch_submit.
  by rewrite Hb.
Qed.

Lemma handleSearch_blank_query_witness :
  GuestSearch.handleSearch (Rejected None) (example_form blank_query)
    = (example_form blank_query,
       {| SearchForm.sent := None; SearchForm.toasts := [] |})
  /\ Search.handleSearch (Some "t") (Rejected None) (example_form blank_query)
    = (example_form blank_query,
       {| SearchForm.sent := None; SearchForm.toasts := [] |}).
Proof.
  apply (handleSearch_blank_query (Some "t") (Rejected None)
           (example_form blank_query)).
  repeat constructor.
Defined.

(** A query that is not blank is sent, in both views, without the white
    space around it: the [query] parameter is not empty, neither starts
    nor ends with white space, and the typed text is that parameter
    between two blank texts.  While the request is pending the state
    shows the spinner and no results.  The views differ in the endpoint
    and in the [Authorization] header only. *)
Theorem handleSearch_sends_trimmed token s :
  ~ blank (SearchForm.query s) ->
  exists q pre post pending,
    GuestSearch.handleSearch_submit s
      = Some (pending,
              {| verb := GET; endpoint := "/guest-search";
                 query_param := Some q; authorization := None |})
    /\ Search.handleSearch_submit token s
      = Some (pending,
              {| verb := GET; endpoint := "/search";
                 query_param := Some q;
                 authorization := Some ("Bearer " ++ default "null" token) |})
    /\ pending = {| SearchForm.query := SearchForm.query s;
                    SearchForm.results := None;
                    SearchForm.loading := true |}
    /\ SearchForm.query s = (pre ++ q ++ post)%list
    /\ blank pre /\ blank post
    /\ q <> []
    /\ (forall c, head q = Some c -> isWhiteSpace c = false)
    /\ (forall c, last q = Some c -> isWhiteSpace c = false).
Proof.
  intros Hnb.
  destruct (trim_split (SearchForm.query s))
    as (pre & post & Heq & Hpre & Hpost & Hhd & Hlast).
  assert (Hne : trim (SearchForm.query s) <> []).
  { intros Ht. by apply Hnb, trim_blank. }
  exists (trim (SearchForm.query s)), pre, post.
  unfold GuestSearch.handleSearch_submit, Search.handleSearch_submit.
  destruct (trim (SearchForm.query s)) as [|c t] eqn:Ht; [done|].
  eexists. repeat split; try done.
Qed.

Lemma handleSearch_sends_trimmed_witness :
  exists q pre post pending,
    GuestSearch.handleSearch_submit (example_form example_query)
      = Some (pending,
              {| verb := GET; endpoint := "/guest-search";
                 query_param := Some q; authorization := None |})
    /\ Search.handleSearch_submit None (example_form example_query)
      = Some (pending,
              {| verb := GET; endpoint := "/search";
                 query_param := Some q;
                 authorization := Some ("Bearer " ++ default "null" None) |})
    /\ pending = {| SearchForm.query := example_query;
                    SearchForm.results := None;
                    SearchForm.loading := true |}
    /\ example_query = (pre ++ q ++ post)%list
    /\ blank pre /\ blank post
    /\ q <> []
    /\ (forall c, head q = Some c -> isWhiteSpace c = false)
    /\ (forall c, last q = Some c -> isWhiteSpace c = false).
Proof.
  apply (handleSearch_sends_trimmed None (example_form example_query)).
  intros Hb. apply trim_blank in Hb. vm_compute in Hb. discriminate.
Defined.

(** Once a search for a non-blank query has completed, in both views,
    the spinner is off and the typed text untouched; the results are the
    payload of the response when there is one, and otherwise there are
    none, the results of an earlier search being gone, and exactly then
    an error notification is raised. *)
Theorem handleSearch_completed token response s :
  ~ blank (SearchForm.query s) ->
  SearchForm.query (GuestSearch.handleSearch response s).1
    = SearchForm.query s
  /\ SearchForm.loading (GuestSearch.handleSearch response s).1 = false
  /\ SearchForm.results (GuestSearch.handleSearch response s).1
     = match response with Resolved data => Some data | Rejected _ => None end
  /\ SearchForm.toasts (GuestSearch.handleSearch response s).2
     = match response with
       | Resolved _ => []
       | Rejected _ => [toast_error "Error searching for products"]
       end
  /\ (Search.handleSearch token response s).1
     = (GuestSearch.handleSearch response s).1
  /\ SearchForm.toasts (Search.handleSearch token response s).2
     = SearchForm.toasts (GuestSearch.handleSearch response s).2.
Proof.
  intros Hnb.
  assert (Hne : trim (SearchForm.query s) <> []).
  { intros Ht. by apply Hnb, trim_blank. }
  unfold GuestSearch.handleSearch, GuestSearch.handleSearch_submit,
    Search.handleSearch, Search.handleSearch_submit.
  destruct (trim (SearchForm.query s)) as [|c t]; [done|].
  by destruct response.
Qed.

Lemma handleSearch_completed_witness :
  SearchForm.query
    (GuestSearch.handleSearch (Rejected None) (example_form example_query)).1
    = example_query
  /\ SearchForm.loading
       (GuestSearch.handleSearch (Rejected None)
          (example_form example_query)).1 = false
  /\ SearchForm.results
       (GuestSearch.handleSearch (Rejected None)
          (example_form example_query)).1 = None
  /\ SearchForm.toasts
       (GuestSearch.handleSearch (Rejected None)
          (example_form example_query)).2
     = [toast_error "Error searching for products"]
  /\ (Search.handleSearch None (Rejected None)
        (example_form example_query)).1
     = (GuestSearch.handleSearch (Rejected None)
          (example_form example_query)).1
  /\ SearchForm.toasts
       (Search.handleSearch None (Rejected None)
          (example_form example_query)).2
     = SearchForm.toasts
         (GuestSearch.handleSearch (Rejected None)
            (example_form example_query)).2.
Proof.
  apply (handleSearch_completed None (Rejected None)
           (example_form example_query)).
  intros Hb. apply trim_blank in Hb. vm_compute in Hb. discriminate.
Defined.

(** ** Authentication and routing *)

Lemma or_else_not_empty detail fallback :
  fallback <> "" -> or_else detail fallback <> "".
Proof. intros Hf. by destruct detail as [[|c s]|]. Qed.

(** What [login] reports and what it leaves behind.  It reports success
    exactly when both [POST /login] and [GET /me] succeed, and then the
    user is the profile received and the stored token the one issued.
    When it reports failure the message is not empty and the user is as
    before; the stored token is as before too, unless the first request
    succeeded, in which case the token issued stays stored. *)
Theorem login_outcome post me s :
  (AuthProvider.success (AuthProvider.login post me s).1 = true <->
     exists tok d, post = Resolved tok /\ me = Resolved d)
  /\ (forall tok d, post = Resolved tok -> me = Resolved d ->
        AuthProvider.user (AuthProvider.login post me s).2 = Some d
        /\ AuthProvider.token (AuthProvider.login post me s).2 = Some tok
        /\ AuthProvider.message (AuthProvider.login post me s).1 = None)
  /\ (AuthProvider.success (AuthProvider.login post me s).1 = false ->
        (exists m,
           AuthProvider.message (AuthProvider.login post me s).1 = Some m
           /\ m <> "")
        /\ AuthProvider.user (AuthProvider.login post me s).2
           = AuthProvider.user s
        /\ AuthProvider.token (AuthProvider.login post me s).2
           = match post with
             | Resolved tok => Some tok
             | Rejected _ => AuthProvider.token s
             end).
Proof.
  unfold AuthProvider.login.
  destruct post as [tok|e], me as [d|e']; cbn.
  - split; [split; [by eauto | done]|].
    split; [by intros ? ? [= <-] [= <-] | discriminate].
  - split; [split; [discriminate | by intros (? & ? & _ & [=])]|].
    split; [by intros ? ? _ [=]|]. intros _.
    split; [|done]. eexists. split; [reflexivity|].
    by apply or_else_not_empty.
  - split; [split; [discriminate | by intros (? & ? & [=] & _)]|].
    split; [by intros ? ? [=]|]. intros _.
    split; [|done]. eexists. split; [reflexivity|].
    by apply or_else_not_empty.
  - split; [split; [discriminate | by intros (? & ? & [=] & _)]|].
    split; [by intros ? ? [=]|]. intros _.
    split; [|done]. eexists. split; [reflexivity|].
    by apply or_else_not_empty.
Qed.

(** A login that stored the token and then failed on [GET /me] reports
    failure, yet the next page load finds the token, and if [GET /me]
    answers then, the user is logged in. *)
Theorem login_failure_then_reload tok detail d s :
  tok <> "" ->
  AuthProvider.success
    (AuthProvider.login (Resolved tok) (Rejected detail) s).1 = false
  /\ AuthProvider.user
       (AuthProvider.mount (Resolved d)
          (AuthProvider.initial
             (AuthProvider.token
                (AuthProvider.login (Resolved tok) (Rejected detail) s).2)))
     = Some d.
Proof.
  intros Htok. split; [reflexivity|]. cbn.
  unfold AuthProvider.mount. cbn. by destruct tok.
Qed.

Lemma login_failure_then_reload_witness :
  AuthProvider.success
    (AuthProvider.login (Resolved "abc") (Rejected None)
       (AuthProvider.initial None)).1 = false
  /\ AuthProvider.user
       (AuthProvider.mount (Resolved example_profile)
          (AuthProvider.initial
             (AuthProvider.token
                (AuthProvider.login (Resolved "abc") (Rejected None)
                   (AuthProvider.initial None)).2)))
     = Some example_profile.
Proof.
  apply (login_failure_then_reload "abc" None example_profile
           (AuthProvider.initial None)).
  discriminate.
Defined.




(** Every location settles after at most one navigation: following the
    elements of the router from any route ends on a view, for every state
    of the provider. *)
Theorem routes_settle auth r :
  exists r' v,
    AppRouter.settle 2 auth r = Some (r', v)
    /\ AppRouter.AppRouter auth r' = AppRouter.Render v.
Proof.
  destruct auth as [[u|] [|] t], r; cbn; eauto.
Qed.

(** What ends up on the screen respects the session, however many
    navigations it took: the search and the shopping lists only with a
    user and once loading is over, the home page only with a user, and
    the login and registration forms only without one. *)
Theorem routes_guarded fuel auth r r' v :
  AppRouter.settle fuel auth r = Some (r', v) ->
  (v = AppRouter.SearchView \/ v = AppRouter.ShoppingListsView ->
     is_Some (AuthProvider.user auth) /\ AuthProvider.loading auth = false)
  /\ (v = AppRouter.HomeView -> is_Some (AuthProvider.user auth))
  /\ (v = AppRouter.LoginForm \/ v = AppRouter.RegisterForm ->
        AuthProvider.user auth = None).
Proof.
  revert r. induction fuel as [|fuel IH]; intros r; [discriminate|].
  cbn [AppRouter.settle].
  destruct (AppRouter.AppRouter auth r) as [v0|to] eqn:Hel; [|apply IH].
  intros [= <- <-].
  clear IH.
  destruct auth as [[u|] [|] t], r; cbn in Hel; simplify_eq; cbn;
    (split; [|split]); intros Hv;
    try (destruct Hv as [Hv|Hv]); try discriminate Hv; by eauto.
Qed.

Lemma routes_guarded_witness :
  (AppRouter.SearchView = AppRouter.SearchView
   \/ AppRouter.SearchView = AppRouter.ShoppingListsView ->
     is_Some (AuthProvider.user
                (AuthProvider.run (Some "abc") (Resolved example_profile) []))
     /\ AuthProvider.loading
          (AuthProvider.run (Some "abc") (Resolved example_profile) [])
        = false)
  /\ (AppRouter.SearchView = AppRouter.HomeView ->
        is_Some (AuthProvider.user
                   (AuthProvider.run (Some "abc")
                      (Resolved example_profile) [])))
  /\ (AppRouter.SearchView = AppRouter.LoginForm
      \/ AppRouter.SearchView = AppRouter.RegisterForm ->
        AuthProvider.user
          (AuthProvider.run (Some "abc") (Resolved example_profile) [])
        = None).
Proof.
  apply (routes_guarded 2
           (AuthProvider.run (Some "abc") (Resolved example_profile) [])
           AppRouter.SearchRoute AppRouter.SearchRoute AppRouter.SearchView).
  reflexivity.
Defined.


(** A page load of "/" does not wait for the profile: while [GET /me] is
    pending no user is set, so even a visitor with a stored token is sent
    to the guest search, and the guest search is what stays on the screen
    once the profile has arrived.  A protected page shows the loading
    text instead and opens when the profile arrives. *)
Theorem reload_home_lands_on_guest_search tok d :
  tok <> "" ->
  let pending := AuthProvider.initial (Some tok) in
  let loaded := AuthProvider.mount (Resolved d) pending in
  AppRouter.settle 2 pending AppRouter.HomeRoute
    = Some (AppRouter.GuestSearchRoute, AppRouter.GuestSearchView)
  /\ AppRouter.settle 2 loaded AppRouter.GuestSearchRoute
    = Some (AppRouter.GuestSearchRoute, AppRouter.GuestSearchView)
  /\ AppRouter.settle 2 pending AppRouter.SearchRoute
    = Some (AppRouter.SearchRoute, AppRouter.LoadingText)
  /\ AppRouter.settle 2 loaded AppRouter.SearchRoute
    = Some (AppRouter.SearchRoute, AppRouter.SearchView)
  /\ AppRouter.settle 2 loaded AppRouter.HomeRoute
    = Some (AppRouter.HomeRoute, AppRouter.HomeView).
Proof.
  intros Htok pending loaded. subst pending loaded.
  unfold AuthProvider.mount, AuthProvider.initial. cbn.
  by destruct tok.
Qed.

Lemma reload_home_lands_on_guest_search_witness :
  let pending := AuthProvider.initial (Some "abc") in
  let loaded := AuthProvider.mount (Resolved example_profile) pending in
  AppRouter.settle 2 pending AppRouter.HomeRoute
    = Some (AppRouter.GuestSearchRoute, AppRouter.GuestSearchView)
  /\ AppRouter.settle 2 loaded AppRouter.GuestSearchRoute
    = Some (AppRouter.GuestSearchRoute, AppRouter.GuestSearchView)
  /\ AppRouter.settle 2 pending AppRouter.SearchRoute
    = Some (AppRouter.SearchRoute, AppRouter.LoadingText)
  /\ AppRouter.settle 2 loaded AppRouter.SearchRoute
    = Some (AppRouter.SearchRoute, AppRouter.SearchView)
  /\ AppRouter.settle 2 loaded AppRouter.HomeRoute
    = Some (AppRouter.HomeRoute, AppRouter.HomeView).
Proof.
  apply (reload_home_lands_on_guest_search "abc" example_profile).
  discriminate.
Defined.

(** ** Deleting a shopping list *)

(** What [handleDeleteList] does to the lists on the screen.  It never
    adds, reorders or drops a list with another identifier; the lists
    change only when the user confirmed and the server accepted, and
    then no list with the deleted identifier is left.  A cancelled
    confirmation sends nothing. *)
Theorem handleDeleteList_lists confirmed token response listId lists :
  let out :=
    ShoppingLists.handleDeleteList confirmed token response listId lists in
  out.1 `sublist_of` lists
  /\ (forall l, l ∈ lists -> ShoppingLists.id l <> listId -> l ∈ out.1)
  /\ (out.1 <> lists -> confirmed = true /\ exists u, response = Resolved u)
  /\ (confirmed = true -> (exists u, response = Resolved u) ->
        forall l, l ∈ out.1 -> ShoppingLists.id l <> listId)
  /\ (confirmed = false -> ShoppingLists.sent out.2 = None).
Proof.
  intros out. subst out. unfold ShoppingLists.handleDeleteList.
  destruct confirmed, response as [u|e]; cbn [fst snd].
  - split; [apply sublist_filter|].
    split; [intros l Hl Hid; by apply list_elem_of_filter|].
    split; [intros _; by eauto|]. split; [|discriminate].
    intros _ _ l Hl. by apply list_elem_of_filter in Hl as [Hl _].
  - split; [reflexivity|]. split; [done|]. split; [done|].
    split; [|discriminate]. by intros _ [u [=]].
  - split; [reflexivity|]. split; [done|]. split; [done|].
    split; [discriminate | done].
  - split; [reflexivity|]. split; [done|]. split; [done|].
    split; [discriminate | done].
Qed.

Lemma filter_all_kept {A} (P : A -> Prop) `{!forall x, Decision (P x)}
    (l : list A) :
  Forall P l -> filter P l = l.
Proof.
  induction 1 as [|x l Hx Hl IH]; [reflexivity|].
  by rewrite filter_cons_True, IH.
Qed.

(** When the identifiers of the lists are distinct and the deleted one is
    among them, a confirmed and accepted deletion removes exactly that
    list and keeps the lists before and after it as they were. *)
Theorem handleDeleteList_removes_one token u listId lists :
  NoDup (ShoppingLists.id <$> lists) ->
  listId ∈ ShoppingLists.id <$> lists ->
  exists before x after,
    lists = (before ++ x :: after)%list
    /\ ShoppingLists.id x = listId
    /\ (ShoppingLists.handleDeleteList true token (Resolved u) listId
          lists).1 = (before ++ after)%list
    /\ ShoppingLists.toasts
         (ShoppingLists.handleDeleteList true token (Resolved u) listId
            lists).2 = [toast_success "Shopping list deleted"].
Proof.
  intros Hnd Hin. apply list_elem_of_fmap in Hin as (x & Hid & Hx).
  apply list_elem_of_split in Hx as (before & after & ->).
  exists before, x, after. split; [reflexivity|]. split; [done|].
  split; [|reflexivity]. cbn [ShoppingLists.handleDeleteList fst].
  rewrite fmap_app, fmap_cons in Hnd.
  apply NoDup_app in Hnd as (_ & Hb & Ha). apply NoDup_cons in Ha as [Ha _].
  subst listId.
  rewrite filter_app, filter_cons_False by (intros Hne; by apply Hne).
  rewrite !filter_all_kept; [reflexivity| |].
  - apply Forall_forall. intros y Hy Heq. apply Ha.
    rewrite <- Heq. by apply list_elem_of_fmap_2.
  - apply Forall_forall. intros y Hy Heq.
    apply (Hb (ShoppingLists.id y)); [by apply list_elem_of_fmap_2|].
    rewrite Heq. left.
Qed.

Lemma handleDeleteList_removes_one_witness :
  exists before x after,
    example_lists = (before ++ x :: after)%list
    /\ ShoppingLists.id x = "L1"
    /\ (ShoppingLists.handleDeleteList true None (Resolved tt) "L1"
          example_lists).1 = (before ++ after)%list
    /\ ShoppingLists.toasts
         (ShoppingLists.handleDeleteList true None (Resolved tt) "L1"
            example_lists).2 = [toast_success "Shopping list deleted"].
Proof.
  apply (handleDeleteList_removes_one None tt "L1" example_lists).
  - apply (bool_decide_unpack _). vm_compute. exact I.
  - vm_compute. left.
Defined.

(** ** The closures on every identifier *)

Lemma views_with_prototype :
  Search.getLowestPrice_with_prototype
    = GuestSearch.getLowestPrice_with_prototype
  /\ Search.prepareChartData_with_prototype
     = GuestSearch.prepareChartData_with_prototype
  /\ Search.renderResults_with_prototype
     = GuestSearch.renderResults_with_prototype.
Proof. repeat split. Qed.

Lemma getLowestPrice_with_prototype_agrees r productId h :
  is_Some (entry r productId) \/ Object_prototype productId = None ->
  GuestSearch.getLowestPrice_with_prototype (Some r) productId h
    = (Return (GuestSearch.getLowestPrice (Some r) productId h).1,
       (GuestSearch.getLowestPrice (Some r) productId h).2).
Proof.
  unfold entry, GuestSearch.getLowestPrice_with_prototype,
    GuestSearch.getLowestPrice, Get.
  destruct (prices r) as [m|]; [|reflexivity].
  destruct (m !! productId) as [l|] eqn:Hm.
  - intros _. cbv [bind read Array_reduce ret].
    by destruct (default [] (h !! l)) as [|x xs].
  - intros [[? [=]]| ->]. reflexivity.
Qed.

Lemma prepareChartData_with_prototype_agrees r productId h :
  is_Some (entry r productId) \/ Object_prototype productId = None ->
  GuestSearch.prepareChartData_with_prototype (Some r) productId h
    = (Return (GuestSearch.prepareChartData (Some r) productId h).1,
       (GuestSearch.prepareChartData (Some r) productId h).2).
Proof.
  unfold entry, GuestSearch.prepareChartData_with_prototype,
    GuestSearch.prepareChartData, Get.
  destruct (prices r) as [m|]; [|reflexivity].
  destruct (m !! productId) as [l|] eqn:Hm.
  - intros _. pose proof (sortedPrices_run l h) as Hs.
    cbv [bind Array_map read ret]. destruct (GuestSearch.sortedPrices l h).
    reflexivity.
  - intros [[? [=]]| ->]. reflexivity.
Qed.

Lemma mapM_completion_agrees {A B} (f' : A -> M (completion B))
    (f : A -> M B) (l : list A) :
  Forall (fun x => forall h, f' x h = (Return (f x h).1, (f x h).2)) l ->
  forall h,
    mapM_completion f' l h = (Return (mapM f l h).1, (mapM f l h).2).
Proof.
  induction 1 as [|x l Hx Hl IH]; intros h; [reflexivity|].
  cbn [mapM_completion mapM]. cbv [bind ret]. rewrite Hx.
  destruct (f x h) as [y h1]. cbn [fst snd]. rewrite IH.
  by destruct (mapM f l h1) as [ys h2].
Qed.

Lemma renderResults_with_prototype_agrees r h :
  (forall p, p ∈ default [] (products r) ->
     is_Some (entry r (id p)) \/ Object_prototype (id p) = None) ->
  GuestSearch.renderResults_with_prototype (Some r) h
    = (Return (GuestSearch.renderResults (Some r) h).1,
       (GuestSearch.renderResults (Some r) h).2).
Proof.
  intros Hids.
  unfold GuestSearch.renderResults_with_prototype, GuestSearch.renderResults.
  destruct (products r) as [[|p ps]|]; try reflexivity.
  change (0 <? length (p :: ps))%nat with true. cbv iota.
  apply mapM_completion_agrees. apply Forall_forall. intros x Hx h0.
  unfold bind.
  rewrite (getLowestPrice_with_prototype_agrees _ _ _ (Hids x Hx)).
  destruct (GuestSearch.getLowestPrice (Some r) (id x) h0) as [o h1].
  cbn [fst snd].
  rewrite (prepareChartData_with_prototype_agrees _ _ _ (Hids x Hx)).
  by destruct (GuestSearch.prepareChartData (Some r) (id x) h1) as [c h2].
Qed.

(** On an identifier that has an own entry in [results.prices], or that
    names no member of [Object.prototype], the lookup through the
    prototype chain changes nothing: the closures return, without
    raising, exactly what [getLowestPrice] and [prepareChartData] above
    return, and leave the same heap; likewise the render when every
    product identifier is such.  Same in both views. *)
Theorem closures_with_prototype_agree r productId h :
  is_Some (entry r productId) \/ Object_prototype productId = None ->
  GuestSearch.getLowestPrice_with_prototype (Some r) productId h
    = (Return (GuestSearch.getLowestPrice (Some r) productId h).1,
       (GuestSearch.getLowestPrice (Some r) productId h).2)
  /\ GuestSearch.prepareChartData_with_prototype (Some r) productId h
     = (Return (GuestSearch.prepareChartData (Some r) productId h).1,
        (GuestSearch.prepareChartData (Some r) productId h).2)
  /\ Search.getLowestPrice_with_prototype (Some r) productId h
     = (Return (Search.getLowestPrice (Some r) productId h).1,
        (Search.getLowestPrice (Some r) productId h).2)
  /\ Search.prepareChartData_with_prototype (Some r) productId h
     = (Return (Search.prepareChartData (Some r) productId h).1,
        (Search.prepareChartData (Some r) productId h).2)
  /\ ((forall p, p ∈ default [] (products r) ->
         is_Some (entry r (id p)) \/ Object_prototype (id p) = None) ->
      GuestSearch.renderResults_with_prototype (Some r) h
        = (Return (GuestSearch.renderResults (Some r) h).1,
           (GuestSearch.renderResults (Some r) h).2)).
Proof.
  intros Hid.
  destruct views_with_prototype as (-> & -> & _).
  rewrite views_getLowestPrice, views_prepareChartData.
  split; [by apply getLowestPrice_with_prototype_agrees|].
  split; [by apply prepareChartData_with_prototype_agrees|].
  split; [by apply getLowestPrice_with_prototype_agrees|].
  split; [by apply prepareChartData_with_prototype_agrees|].
  apply renderResults_with_prototype_agrees.
Qed.

Lemma closures_with_prototype_agree_witness :
  GuestSearch.getLowestPrice_with_prototype (Some example_results) "P1"
    example_heap = (Return (Some store_C), example_heap)
  /\ GuestSearch.prepareChartData_with_prototype (Some example_results) "P1"
       example_heap
     = (Return (GuestSearch.prepareChartData (Some example_results) "P1"
                  example_heap).1,
        (GuestSearch.prepareChartData (Some example_results) "P1"
           example_heap).2)
  /\ Search.getLowestPrice_with_prototype (Some example_results) "P1"
       example_heap = (Return (Some store_C), example_heap)
  /\ Search.prepareChartData_with_prototype (Some example_results) "P1"
       example_heap
     = (Return (Search.prepareChartData (Some example_results) "P1"
                  example_heap).1,
        (Search.prepareChartData (Some example_results) "P1"
           example_heap).2)
  /\ ((forall p, p ∈ default [] (products example_results) ->
         is_Some (entry example_results (id p))
         \/ Object_prototype (id p) = None) ->
      GuestSearch.renderResults_with_prototype (Some example_results)
        example_heap
        = (Return (GuestSearch.renderResults (Some example_results)
                     example_heap).1,
           (GuestSearch.renderResults (Some example_results)
              example_heap).2)).
Proof.
  apply (closures_with_prototype_agree example_results "P1" example_heap).
  left. by eexists.
Defined.

(** A product identifier with no own entry in [results.prices] (the
    mapping itself may be missing) that names no member of
    [Object.prototype] gets null from [getLowestPrice] and from
    [prepareChartData], which leave the heap alone.  When every product
    identifier has an own entry or names no such member, the render
    raises nothing, the cards come out in the order of
    [results.products], one per product, whatever price data each has,
    and the card of a product without entry carries neither a price nor
    a chart.  Same in both views. *)
Theorem sparse_product_absent_own_keys r productId h :
  entry r productId = None ->
  Object_prototype productId = None ->
  (forall p, p ∈ default [] (products r) ->
     is_Some (entry r (id p)) \/ Object_prototype (id p) = None) ->
  GuestSearch.getLowestPrice_with_prototype (Some r) productId h
    = (Return None, h)
  /\ GuestSearch.prepareChartData_with_prototype (Some r) productId h
     = (Return None, h)
  /\ Search.getLowestPrice_with_prototype (Some r) productId h
     = (Return None, h)
  /\ Search.prepareChartData_with_prototype (Some r) productId h
     = (Return None, h)
  /\ exists cards h',
       GuestSearch.renderResults_with_prototype (Some r) h
         = (Return cards, h')
       /\ Search.renderResults_with_prototype (Some r) h = (Return cards, h')
       /\ shown <$> cards = default [] (products r)
       /\ (forall c, c ∈ cards -> key c = productId ->
             bestPrice c = None /\ chart c = None).
Proof.
  intros Hnone Hplain Hids.
  destruct views_with_prototype as (-> & -> & ->).
  assert (Hlow :
    GuestSearch.getLowestPrice_with_prototype (Some r) productId h
      = (Return None, h)).
  { rewrite getLowestPrice_with_prototype_agrees by (by right).
    by rewrite (getLowestPrice_no_entry _ _ _ Hnone). }
  assert (Hchart :
    GuestSearch.prepareChartData_with_prototype (Some r) productId h
      = (Return None, h)).
  { rewrite prepareChartData_with_prototype_agrees by (by right).
    by rewrite (prepareChartData_no_entry _ _ _ Hnone). }
  do 4 (split; [done|]).
  exists (GuestSearch.renderResults (Some r) h).1,
    (GuestSearch.renderResults (Some r) h).2.
  rewrite (renderResults_with_prototype_agrees _ _ Hids).
  split; [reflexivity|]. split; [reflexivity|].
  pose proof (renderResults_cards r h) as Hcards. split.
  - clear Hids. induction Hcards as [|p c ps cs (Hp & _) _ IH];
      [reflexivity|].
    cbn. by rewrite Hp, IH.
  - intros c Hc Hkey. apply list_elem_of_lookup in Hc as [i Hi].
    destruct (Forall2_lookup_r _ _ _ _ _ Hcards Hi)
      as (p & _ & _ & Hid & Habs).
    apply Habs. by rewrite <- Hid, Hkey.
Qed.

Lemma sparse_product_absent_own_keys_witness :
  GuestSearch.getLowestPrice_with_prototype (Some example_results) "P2"
    example_heap = (Return None, example_heap)
  /\ GuestSearch.prepareChartData_with_prototype (Some example_results) "P2"
       example_heap = (Return None, example_heap)
  /\ Search.getLowestPrice_with_prototype (Some example_results) "P2"
       example_heap = (Return None, example_heap)
  /\ Search.prepareChartData_with_prototype (Some example_results) "P2"
       example_heap = (Return None, example_heap)
  /\ exists cards h',
       GuestSearch.renderResults_with_prototype (Some example_results)
         example_heap = (Return cards, h')
       /\ Search.renderResults_with_prototype (Some example_results)
            example_heap = (Return cards, h')
       /\ shown <$> cards = [product_P1; product_P2]
       /\ (forall c, c ∈ cards -> key c = "P2" ->
             bestPrice c = None /\ chart c = None).
Proof.
  apply (sparse_product_absent_own_keys example_results "P2" example_heap).
  - reflexivity.
  - reflexivity.
  - intros p Hp. right. cbn in Hp.
    apply elem_of_cons in Hp as [->|Hp]; [reflexivity|].
    apply list_elem_of_singleton in Hp as ->. reflexivity.
Defined.
